(** * FX trading app: the wallet ledger, the FX rate resolver and the
      conversion service, embedded from the TypeScript sources

    Sources embedded here:
    - [wallet.service.ts]  (fundWallet, deductBalance, addBalance)
    - [fx.service.ts]      (getRate, fetchFromApi, getLastKnownRate, convertAmount)
    - [trading.service.ts] (convertCurrency)
    - the entities [Wallet], [Transaction], [FxRate] and the [Currency] and
      [TransactionStatus] enumerations.

    Money is text in the sources (TypeORM maps a decimal column to a string)
    and every computation goes through decimal.js.  The first part of this
    file is a model of the part of decimal.js the services call.

    The services are embedded as functions of a world (database, open
    transaction, cache, provider, clock) that return or throw and leave a
    world; every call on a collaborator is logged, so that the order of the
    calls can be stated.  One request runs at a time: what PostgreSQL does
    between concurrent transactions (blocking on a row lock, serialization
    failures, deadlock detection) is outside the model. *)

From Stdlib Require Import ZArith Lia String Ascii.
From stdpp Require Import gmap strings list fin_maps.

Open Scope Z_scope.

(** ** decimal.js: values, parsing, arithmetic and [toFixed] *)

Module Dec.

(** [pow10 k] is 10^k. *)
Definition pow10 (k : nat) : Z := 10 ^ Z.of_nat k.

(** A decimal.js value: [coef * 10^-scale].  decimal.js keeps a coefficient
    and an exponent as well; it also keeps 20 significant digits at most in
    the result of [plus], [minus] and [times] (its default [precision]).
    The model computes exactly: it describes the library on results of at
    most 20 significant digits. *)
Record Decimal := mkDecimal { coef : Z; scale : nat }.

(** Two decimals denote the same number. *)
Definition Deq (x y : Decimal) : Prop :=
  coef x * pow10 (scale y) = coef y * pow10 (scale x).

Definition digitChar (d : Z) : ascii :=
  match d with
  | 0 => "0" | 1 => "1" | 2 => "2" | 3 => "3" | 4 => "4"
  | 5 => "5" | 6 => "6" | 7 => "7" | 8 => "8" | _ => "9"
  end%char.

Definition digitOf (c : ascii) : option Z :=
  let n := Z.of_N (N_of_ascii c) in
  if (48 <=? n) && (n <=? 57) then Some (n - 48) else None.

(** The [k] low decimal digits of [n], most significant first. *)
Fixpoint showDigits (k : nat) (n : Z) : string :=
  match k with
  | O => EmptyString
  | S k' => String (digitChar ((n / pow10 k') mod 10)) (showDigits k' n)
  end.

Fixpoint countDigits (fuel : nat) (n : Z) : nat :=
  match fuel with
  | O => 1%nat
  | S f => if n <? 10 then 1%nat else S (countDigits f (n / 10))
  end.

(** Number of decimal digits of a natural number (1 for zero). *)
Definition numDigits (n : Z) : nat := countDigits (Z.to_nat (Z.log2 n)) n.

(** A natural number in decimal notation. *)
Definition showNat (n : Z) : string := showDigits (numDigits n) n.

(** An integer in decimal notation, as JavaScript prints it in a template
    string. *)
Definition showInt (n : Z) : string :=
  if n <? 0 then String "-" (showNat (- n)) else showNat n.

(** Reads a run of digits: the value read (on top of [acc]), the number of
    digits read (on top of [cnt]) and the text left. *)
Fixpoint readDigits (s : string) (acc : Z) (cnt : nat) : Z * nat * string :=
  match s with
  | String c s' =>
      match digitOf c with
      | Some d => readDigits s' (10 * acc + d) (S cnt)
      | None => (acc, cnt, s)
      end
  | EmptyString => (acc, cnt, EmptyString)
  end.

(** Plain decimal notation: digits, optionally a point and more digits, with
    at least one digit in all (so 5, 5., .5 and 6.50 are read, a lone point
    is not). *)
Definition parseUnsigned (s : string) : option Decimal :=
  let '(i, ni, rest) := readDigits s 0 0 in
  match rest with
  | EmptyString => if (ni =? 0)%nat then None else Some (mkDecimal i 0)
  | String c frac =>
      if Ascii.eqb c "." then
        let '(m, nf, rest') := readDigits frac i 0 in
        match rest' with
        | EmptyString =>
            if (ni + nf =? 0)%nat then None else Some (mkDecimal m nf)
        | String _ _ => None
        end
      else None
  end.

(** [new Decimal(text)].  [None] stands for the DecimalError the constructor
    throws.  Only the plain notation with an optional minus sign is read;
    the exponent, hexadecimal, [Infinity] and [NaN] forms that decimal.js
    also accepts are outside the model, and negative zero is zero. *)
Definition newDecimal (s : string) : option Decimal :=
  match s with
  | String c s' =>
      if Ascii.eqb c "-" then
        match parseUnsigned s' with
        | Some d => Some (mkDecimal (- coef d) (scale d))
        | None => None
        end
      else parseUnsigned s
  | EmptyString => None
  end.

Definition plus (x y : Decimal) : Decimal :=
  let s := Nat.max (scale x) (scale y) in
  mkDecimal (coef x * pow10 (s - scale x) + coef y * pow10 (s - scale y)) s.

Definition minus (x y : Decimal) : Decimal :=
  let s := Nat.max (scale x) (scale y) in
  mkDecimal (coef x * pow10 (s - scale x) - coef y * pow10 (s - scale y)) s.

Definition times (x y : Decimal) : Decimal :=
  mkDecimal (coef x * coef y) (scale x + scale y).

Definition lessThan (x y : Decimal) : bool :=
  coef x * pow10 (scale y) <? coef y * pow10 (scale x).

Definition isNeg (x : Decimal) : bool := coef x <? 0.

(** The magnitude of [d] in units of [10^-dp], rounded to the nearest unit
    and away from zero on a tie (ROUND_HALF_UP, the default [rounding]). *)
Definition rescale (dp : nat) (d : Decimal) : Z :=
  let m := Z.abs (coef d) in
  if (scale d <=? dp)%nat then m * pow10 (dp - scale d)
  else (2 * m + pow10 (scale d - dp)) / (2 * pow10 (scale d - dp)).

(** The digits of [toFixed]: integer part, and [dp] decimals after a point. *)
Definition showFixed (dp : nat) (r : Z) : string :=
  showNat (r / pow10 dp) +:+
  match dp with
  | O => EmptyString
  | S _ => String "." (showDigits dp r)
  end.

(** [d.toFixed(dp)].  decimal.js takes the sign from the value before it is
    rounded, so a small negative number prints as "-0.00". *)
Definition toFixed (dp : nat) (d : Decimal) : string :=
  if isNeg d then String "-" (showFixed dp (rescale dp d))
  else showFixed dp (rescale dp d).

End Dec.

Import Dec.


(** ** Entities *)

(** [Currency] (wallet.entity.ts). *)
Inductive Currency := NGN | USD | EUR | GBP.

(** The text of a currency, as it appears in keys and messages. *)
Definition code (c : Currency) : string :=
  match c with NGN => "NGN" | USD => "USD" | EUR => "EUR" | GBP => "GBP" end.

#[global] Instance Currency_eq_dec : EqDecision Currency.
Proof. solve_decision. Defined.

#[global] Instance Currency_countable : Countable Currency.
Proof.
  refine (inj_countable'
    (fun c => match c with NGN => 0%nat | USD => 1%nat | EUR => 2%nat | GBP => 3%nat end)
    (fun n => match n with 0%nat => NGN | 1%nat => USD | 2%nat => EUR | _ => GBP end) _).
  intros []; reflexivity.
Defined.

(** [TransactionType] and [TransactionStatus] (transaction.entity.ts). *)
Inductive TransactionType := FUND | CONVERT | TRADE.
Inductive TransactionStatus := PENDING | COMPLETED | FAILED.

#[global] Instance TransactionStatus_eq_dec : EqDecision TransactionStatus.
Proof. solve_decision. Defined.

(** A row of [wallets].  The table has a unique index on (userId,
    currency): the store below keeps the row under that pair, so the two
    columns are the key and not fields of the record.  The generated columns
    id, createdAt and updatedAt are left out. *)
Record Wallet := mkWallet {
  balance : string;
  lockedBalance : string;
  version : Z
}.

(** The jsonb [metadata] of a transaction: what fundWallet and
    convertCurrency put there. *)
Inductive Metadata :=
| FundMetadata (fundingMethod : string)
| ConvertMetadata (rateSource : string) (rateTimestamp : Z)
    (rateAgeSeconds : Z) (rateWarning : option string).

(** A row of [transactions]; [reference] carries a unique index. *)
Record Transaction := mkTransaction {
  userId : string;
  type : TransactionType;
  fromCurrency : option Currency;
  fromAmount : option string;
  toCurrency : option Currency;
  toAmount : option string;
  fxRate : option string;
  status : TransactionStatus;
  reference : string;
  metadata : Metadata;
  errorMessage : option string
}.

(** A row of [fx_rates]; [fetchedAt] is in milliseconds, like every time
    below. *)
Record FxRate := mkFxRate {
  fx_fromCurrency : Currency;
  fx_toCurrency : Currency;
  fx_rate : string;
  fx_source : string;
  fetchedAt : Z
}.

(** [FxRateInfo] (fx.service.ts). *)
Record FxRateInfo := mkFxRateInfo {
  rate_fromCurrency : Currency;
  rate_toCurrency : Currency;
  rate : string;
  timestamp : Z;
  ageSeconds : Z;
  source : string;
  warning : option string
}.

(** The request bodies.  [amount] is a JavaScript number in the DTOs; the
    services read it through [amount.toString()] and [new Decimal(amount)],
    so the model carries the text of the number. *)
Record ConvertCurrencyDto := mkConvertCurrencyDto {
  dto_fromCurrency : Currency;
  dto_toCurrency : Currency;
  dto_amount : string;
  dto_reference : string
}.

Record FundWalletDto := mkFundWalletDto {
  fund_currency : Currency;
  fund_amount : string;
  fund_reference : string
}.

(** What the services throw. *)
Inductive Exception :=
| BadRequestException (message : string)
| NotFoundException (message : string)
| Error (message : string)
| DecimalError (argument : string)
| QueryFailedError (message : string).

Definition message_of (e : Exception) : string :=
  match e with
  | BadRequestException m | NotFoundException m | Error m
  | QueryFailedError m => m
  | DecimalError a => "[DecimalError] Invalid argument: " +:+ a
  end.

(** ** The store, the cache, the rate provider and the monad of effects *)

(** The three tables.  Rows hold the text the services write: the rounding
    and the range check PostgreSQL applies to the decimal(15,2) and
    decimal(10,6) columns are not modelled. *)
Record Db := mkDb {
  wallets : gmap (string * Currency) Wallet;
  transactions : gmap string Transaction;
  fxRates : list FxRate
}.

(** Every call a service makes on a repository, a query runner, the cache
    manager or the HTTP client, in the order the calls are made. *)
Inductive Event :=
| TransactionFindOne (reference : string)
| TransactionSave (reference : string) (st : TransactionStatus)
| WalletLock (userId : string) (c : Currency)
| WalletSave (userId : string) (c : Currency)
| StartTransaction
| CommitTransaction
| RollbackTransaction
| Release
| CacheGet (key : string)
| CacheSet (key : string)
| HttpGet (base : Currency)
| FxRateSave (src dst : Currency)
| FxRateFindOne (src dst : Currency).

Record CacheEntry := mkCacheEntry { cached : FxRateInfo; expiresAt : Z }.

(** The world a service call runs in.
    - [committed]: the database as every connection outside a transaction
      reads it;
    - [working]: the private copy of the query runner's open SERIALIZABLE
      transaction, if one is open (one query runner at a time: the model is
      of one request running alone);
    - [cache]: the cache manager's entries with their expiry;
    - [api]: the answer of the exchange-rate API for a base currency, [None]
      when the request fails or times out, else the [rates] table of the
      response;
    - [now]: the clock, in milliseconds;
    - [cacheTTL]: FX_CACHE_TTL, in seconds;
    - [log]: the calls made so far, oldest first. *)
Record World := mkWorld {
  committed : Db;
  working : option Db;
  cache : gmap string CacheEntry;
  api : Currency -> option (Currency -> option Decimal);
  now : Z;
  cacheTTL : Z;
  log : list Event
}.

Inductive Outcome (A : Type) :=
| Returned (a : A)
| Thrown (e : Exception).
Arguments Returned {A} a.
Arguments Thrown {A} e.

(** An [async] function: runs in a world, returns or throws, and leaves a
    world. *)
Definition IO (A : Type) : Type := World -> Outcome A * World.

Definition ret {A} (a : A) : IO A := fun w => (Returned a, w).
Definition throw {A} (e : Exception) : IO A := fun w => (Thrown e, w).
Definition bind {A B} (m : IO A) (k : A -> IO B) : IO B :=
  fun w => match m w with
           | (Returned a, w') => k a w'
           | (Thrown e, w') => (Thrown e, w')
           end.

Declare Scope io_scope.
Delimit Scope io_scope with io.
Notation "x <- m ;; k" := (bind m (fun x => k))
  (at level 100, m at next level, right associativity) : io_scope.
Notation "m ;; k" := (bind m (fun _ => k))
  (at level 100, right associativity) : io_scope.
Open Scope io_scope.

(** [try { body } catch (error) { handler }]. *)
Definition tryCatch {A} (body : IO A) (handler : Exception -> IO A) : IO A :=
  fun w => match body w with
           | (Returned a, w') => (Returned a, w')
           | (Thrown e, w') => handler e w'
           end.

(** [try { body } finally { cleanup }]. *)
Definition finally {A} (body : IO A) (cleanup : IO unit) : IO A :=
  fun w => match body w with
           | (r, w') =>
               match cleanup w' with
               | (Returned _, w'') => (r, w'')
               | (Thrown e, w'') => (Thrown e, w'')
               end
           end.

(** The world with one more call in its log. *)
Definition logged (e : Event) (w : World) : World :=
  mkWorld (committed w) (working w) (cache w) (api w) (now w) (cacheTTL w)
          (log w ++ [e]).

Definition emit (e : Event) : IO unit := fun w => (Returned tt, logged e w).

Definition setCommitted (d : Db) (w : World) : World :=
  mkWorld d (working w) (cache w) (api w) (now w) (cacheTTL w) (log w).

Definition setWorking (t : option Db) (w : World) : World :=
  mkWorld (committed w) t (cache w) (api w) (now w) (cacheTTL w) (log w).

Definition setCache (c : gmap string CacheEntry) (w : World) : World :=
  mkWorld (committed w) (working w) c (api w) (now w) (cacheTTL w) (log w).

(** The database a query runner's manager acts on: the open transaction's
    copy, or the committed state when no transaction is open. *)
Definition current (w : World) : Db :=
  match working w with Some t => t | None => committed w end.

Definition setCurrent (d : Db) (w : World) : World :=
  match working w with
  | Some _ => setWorking (Some d) w
  | None => setCommitted d w
  end.

Definition setWallets (ws : gmap (string * Currency) Wallet) (d : Db) : Db :=
  mkDb ws (transactions d) (fxRates d).

Definition setTransactions (ts : gmap string Transaction) (d : Db) : Db :=
  mkDb (wallets d) ts (fxRates d).

Definition setFxRates (rs : list FxRate) (d : Db) : Db :=
  mkDb (wallets d) (transactions d) rs.

(** *** Query runner, repositories, cache manager, HTTP client *)

(** [queryRunner.startTransaction("SERIALIZABLE")]. *)
Definition startTransaction : IO unit :=
  emit StartTransaction ;;
  fun w => (Returned tt, setWorking (Some (committed w)) w).

(** [queryRunner.commitTransaction()]: the copy becomes the database. *)
Definition commitTransaction : IO unit :=
  emit CommitTransaction ;;
  fun w => match working w with
           | Some t => (Returned tt, setWorking None (setCommitted t w))
           | None => (Thrown (Error "TransactionNotStartedError"), w)
           end.

(** [queryRunner.rollbackTransaction()]: the copy is dropped. *)
Definition rollbackTransaction : IO unit :=
  emit RollbackTransaction ;;
  fun w => match working w with
           | Some _ => (Returned tt, setWorking None w)
           | None => (Thrown (Error "TransactionNotStartedError"), w)
           end.

(** [queryRunner.release()]. *)
Definition release : IO unit := emit Release.

(** [transactionRepository.findOne({ where: { reference } })]: the
    repository has a connection of its own and reads committed rows. *)
Definition transactionRepository_findOne (reference : string) : IO (option Transaction) :=
  emit (TransactionFindOne reference) ;;
  fun w => (Returned (transactions (committed w) !! reference), w).

(** [transactionRepository.save(t)] of a row that was read before: an
    UPDATE outside any transaction. *)
Definition transactionRepository_save (t : Transaction) : IO unit :=
  emit (TransactionSave (reference t) (status t)) ;;
  fun w => (Returned tt,
            setCommitted (setTransactions (<[reference t := t]> (transactions (committed w)))
                                          (committed w)) w).

(** [queryRunner.manager.save(transaction)] of a new entity: an INSERT,
    refused by the unique index when the reference is taken. *)
Definition manager_insert_Transaction (t : Transaction) : IO unit :=
  emit (TransactionSave (reference t) (status t)) ;;
  fun w => match transactions (current w) !! reference t with
           | Some _ =>
               (Thrown (QueryFailedError
                  "duplicate key value violates unique constraint"), w)
           | None =>
               (Returned tt,
                setCurrent (setTransactions (<[reference t := t]> (transactions (current w)))
                                            (current w)) w)
           end.

(** [queryRunner.manager.save(transaction)] of the entity saved before: an
    UPDATE of its row. *)
Definition manager_update_Transaction (t : Transaction) : IO unit :=
  emit (TransactionSave (reference t) (status t)) ;;
  fun w => (Returned tt,
            setCurrent (setTransactions (<[reference t := t]> (transactions (current w)))
                                        (current w)) w).

(** [queryRunner.manager.findOne(Wallet, { where: { userId, currency },
    lock: { mode: "pessimistic_write" } })]: SELECT ... FOR UPDATE, which
    TypeORM refuses outside a transaction. *)
Definition manager_findOne_Wallet (userId : string) (c : Currency) : IO (option Wallet) :=
  emit (WalletLock userId c) ;;
  fun w => match working w with
           | Some t => (Returned (wallets t !! (userId, c)), w)
           | None => (Thrown (Error "PessimisticLockTransactionRequiredError"), w)
           end.

(** [queryRunner.manager.save(wallet)] for the wallet of (userId, currency):
    INSERT or UPDATE of that row; the version column counts the saves. *)
Definition manager_save_Wallet (userId : string) (c : Currency) (wl : Wallet) : IO Wallet :=
  emit (WalletSave userId c) ;;
  fun w =>
    let v := match wallets (current w) !! (userId, c) with
             | Some old => version old + 1
             | None => 1
             end in
    let saved := mkWallet (balance wl) (lockedBalance wl) v in
    (Returned saved,
     setCurrent (setWallets (<[(userId, c) := saved]> (wallets (current w))) (current w)) w).

(** [walletRepository.create({ userId, currency, balance: "0.00",
    lockedBalance: "0.00" })]. *)
Definition walletRepository_create : Wallet := mkWallet "0.00" "0.00" 0.

(** [new Decimal(text)] in a service: throws on text that is no number. *)
Definition new_Decimal (s : string) : IO Decimal :=
  match newDecimal s with
  | Some d => ret d
  | None => throw (DecimalError s)
  end.

(** [cacheManager.get(key)]: an entry that has not expired. *)
Definition cacheManager_get (key : string) : IO (option FxRateInfo) :=
  emit (CacheGet key) ;;
  fun w => (Returned (match cache w !! key with
                      | Some e => if now w <? expiresAt e then Some (cached e) else None
                      | None => None
                      end), w).

(** [cacheManager.set(key, value, ttl)], [ttl] in milliseconds. *)
Definition cacheManager_set (key : string) (value : FxRateInfo) (ttl : Z) : IO unit :=
  emit (CacheSet key) ;;
  fun w => (Returned tt, setCache (<[key := mkCacheEntry value (now w + ttl)]> (cache w)) w).

(** ** wallet.service.ts *)

Inductive FundResult :=
| FundReplayed (message : string) (transaction : Transaction)
| Funded (message : string) (transaction : Transaction) (wallet : Wallet).

Definition withBalance (wl : Wallet) (b : string) : Wallet :=
  mkWallet b (lockedBalance wl) (version wl).

Definition withStatus (t : Transaction) (s : TransactionStatus) : Transaction :=
  mkTransaction (userId t) (type t) (fromCurrency t) (fromAmount t) (toCurrency t)
    (toAmount t) (fxRate t) s (reference t) (metadata t) (errorMessage t).

Definition withFailure (t : Transaction) (msg : string) : Transaction :=
  mkTransaction (userId t) (type t) (fromCurrency t) (fromAmount t) (toCurrency t)
    (toAmount t) (fxRate t) FAILED (reference t) (metadata t) (Some msg).

(** [WalletService.deductBalance(queryRunner, userId, currency, amount)]. *)
Definition deductBalance (userId : string) (currency : Currency) (amount : string) : IO Wallet :=
  found <- manager_findOne_Wallet userId currency ;;
  match found with
  | None => throw (NotFoundException ("Wallet not found for currency " +:+ code currency))
  | Some wallet =>
      currentBalance <- new_Decimal (balance wallet) ;;
      deductAmount <- new_Decimal amount ;;
      if lessThan currentBalance deductAmount then
        throw (BadRequestException
                 ("Insufficient balance in " +:+ code currency +:+ " wallet"))
      else
        manager_save_Wallet userId currency
          (withBalance wallet (toFixed 2 (minus currentBalance deductAmount)))
  end.

(** [WalletService.addBalance(queryRunner, userId, currency, amount)]. *)
Definition addBalance (userId : string) (currency : Currency) (amount : string) : IO Wallet :=
  found <- manager_findOne_Wallet userId currency ;;
  let wallet := match found with
                | Some wl => wl
                | None => walletRepository_create
                end in
  currentBalance <- new_Decimal (balance wallet) ;;
  addAmount <- new_Decimal amount ;;
  manager_save_Wallet userId currency
    (withBalance wallet (toFixed 2 (plus currentBalance addAmount))).

(** [WalletService.fundWallet(userId, fundWalletDto)]. *)
Definition fundWallet (userId : string) (fundWalletDto : FundWalletDto) : IO FundResult :=
  let currency := fund_currency fundWalletDto in
  let amount := fund_amount fundWalletDto in
  let reference := fund_reference fundWalletDto in
  existingTransaction <- transactionRepository_findOne reference ;;
  match existingTransaction with
  | Some existing =>
      match status existing with
      | COMPLETED => ret (FundReplayed "Transaction already processed" existing)
      | PENDING =>
          throw (BadRequestException "Transaction is being processed. Please wait.")
      | FAILED =>
          throw (BadRequestException "Transaction has failed. Please use a new reference.")
      end
  | None =>
      startTransaction ;;
      finally
        (tryCatch
           (let transaction :=
              mkTransaction userId FUND None None (Some currency) (Some amount) None
                            PENDING reference (FundMetadata "direct") None in
            manager_insert_Transaction transaction ;;
            found <- manager_findOne_Wallet userId currency ;;
            let wallet := match found with
                          | Some wl => wl
                          | None => walletRepository_create
                          end in
            currentBalance <- new_Decimal (balance wallet) ;;
            fundAmount <- new_Decimal amount ;;
            wallet <- manager_save_Wallet userId currency
                        (withBalance wallet (toFixed 2 (plus currentBalance fundAmount))) ;;
            let transaction := withStatus transaction COMPLETED in
            manager_update_Transaction transaction ;;
            commitTransaction ;;
            ret (Funded "Wallet funded successfully" transaction wallet))
           (fun error => rollbackTransaction ;; throw error))
        release
  end.

(** ** fx.service.ts *)

Definition cacheKeyOf (fromCurrency toCurrency : Currency) : string :=
  "fx:" +:+ code fromCurrency +:+ ":" +:+ code toCurrency.

(** [fetchFromApi]: GET [apiUrl/fromCurrency] with a 5 second timeout, then
    [rates[toCurrency]], refused when it is missing or zero. *)
Definition fetchFromApi (fromCurrency toCurrency : Currency) : IO FxRateInfo :=
  emit (HttpGet fromCurrency) ;;
  fun w =>
    match api w fromCurrency with
    | None => (Thrown (Error "Request failed"), w)
    | Some rates =>
        match rates toCurrency with
        | Some r =>
            if coef r =? 0 then
              (Thrown (Error ("Rate not available for " +:+ code toCurrency)), w)
            else
              (Returned (mkFxRateInfo fromCurrency toCurrency (toFixed 6 r) (now w) 0
                                      "exchangerate-api" None), w)
        | None => (Thrown (Error ("Rate not available for " +:+ code toCurrency)), w)
        end
    end.

(** [saveRateToDatabase]: a row of [fx_rates], stamped by the database. *)
Definition saveRateToDatabase (rateInfo : FxRateInfo) : IO unit :=
  emit (FxRateSave (rate_fromCurrency rateInfo) (rate_toCurrency rateInfo)) ;;
  fun w =>
    let row := mkFxRate (rate_fromCurrency rateInfo) (rate_toCurrency rateInfo)
                        (rate rateInfo) (source rateInfo) (now w) in
    (Returned tt, setCommitted (setFxRates (fxRates (committed w) ++ [row]) (committed w)) w).

(** The newer of two rows, the one met first on a tie. *)
Definition newer (best : option FxRate) (r : FxRate) : option FxRate :=
  match best with
  | None => Some r
  | Some b => if fetchedAt b <? fetchedAt r then Some r else Some b
  end.

(** [findOne({ where: { fromCurrency, toCurrency }, order: { fetchedAt:
    "DESC" } })]. *)
Definition latestRate (fromCurrency toCurrency : Currency) (rows : list FxRate)
    : option FxRate :=
  fold_left newer
    (List.filter (fun r => bool_decide (fx_fromCurrency r = fromCurrency)
                           && bool_decide (fx_toCurrency r = toCurrency)) rows)
    None.

(** [getLastKnownRate]. *)
Definition getLastKnownRate (fromCurrency toCurrency : Currency)
    : IO (option FxRateInfo) :=
  emit (FxRateFindOne fromCurrency toCurrency) ;;
  fun w =>
    match latestRate fromCurrency toCurrency (fxRates (committed w)) with
    | None => (Returned None, w)
    | Some fxRate =>
        (Returned (Some (mkFxRateInfo (fx_fromCurrency fxRate) (fx_toCurrency fxRate)
                           (fx_rate fxRate) (fetchedAt fxRate) 0
                           (if String.eqb (fx_source fxRate) "" then "database"
                            else fx_source fxRate)
                           None)), w)
    end.

(** [new Date().getTime()]. *)
Definition getTime : IO Z := fun w => (Returned (now w), w).

Definition getCacheTTL : IO Z := fun w => (Returned (cacheTTL w), w).

(** [FxService.getRate(fromCurrency, toCurrency)]. *)
Definition getRate (fromCurrency toCurrency : Currency) : IO FxRateInfo :=
  if decide (fromCurrency = toCurrency) then
    t <- getTime ;;
    ret (mkFxRateInfo fromCurrency toCurrency "1.000000" t 0 "direct" None)
  else
    let cacheKey := cacheKeyOf fromCurrency toCurrency in
    cachedRate <- cacheManager_get cacheKey ;;
    match cachedRate with
    | Some cachedRate => ret cachedRate
    | None =>
        tryCatch
          (rate <- fetchFromApi fromCurrency toCurrency ;;
           ttl <- getCacheTTL ;;
           cacheManager_set cacheKey rate (ttl * 1000) ;;
           saveRateToDatabase rate ;;
           ret rate)
          (fun error =>
             lastKnownRate <- getLastKnownRate fromCurrency toCurrency ;;
             t <- getTime ;;
             match lastKnownRate with
             | Some lastKnownRate =>
                 let ageSeconds := (t - timestamp lastKnownRate) / 1000 in
                 if ageSeconds <? 3600 then
                   ret (mkFxRateInfo (rate_fromCurrency lastKnownRate)
                          (rate_toCurrency lastKnownRate) (rate lastKnownRate)
                          (timestamp lastKnownRate) ageSeconds (source lastKnownRate)
                          (Some ("Using cached rate from " +:+ showInt ageSeconds +:+
                                 " seconds ago. Current rates unavailable.")))
                 else
                   throw (Error "Exchange rate service unavailable. Please try again later.")
             | None =>
                 throw (Error "Exchange rate service unavailable. Please try again later.")
             end)
    end.

(** [FxService.convertAmount(amount, rate)]:
    [new Decimal(amount).times(rate).toFixed(2)]. *)
Definition convertAmount (amount rate : string) : IO string :=
  a <- new_Decimal amount ;;
  r <- new_Decimal rate ;;
  ret (toFixed 2 (times a r)).

(** ** trading.service.ts *)

(** What convertCurrency resolves to: the replay of a completed reference,
    or the conversion it made (whose [transaction] object shows the
    currencies, amounts, rate, reference and status of the row). *)
Inductive ConvertResult :=
| ConversionReplayed (message : string) (transaction : Transaction)
| Converted (message : string) (transaction : Transaction) (rateInfo : FxRateInfo).

(** [TradingService.convertCurrency(userId, convertDto)]. *)
Definition convertCurrency (userId : string) (convertDto : ConvertCurrencyDto)
    : IO ConvertResult :=
  let fromCurrency := dto_fromCurrency convertDto in
  let toCurrency := dto_toCurrency convertDto in
  let amount := dto_amount convertDto in
  let reference := dto_reference convertDto in
  if decide (fromCurrency = toCurrency) then
    throw (BadRequestException "Cannot convert to the same currency")
  else
    existingTransaction <- transactionRepository_findOne reference ;;
    match existingTransaction with
    | Some existing =>
        match status existing with
        | COMPLETED => ret (ConversionReplayed "Conversion already processed" existing)
        | PENDING =>
            throw (BadRequestException "Conversion is being processed. Please wait.")
        | FAILED =>
            throw (BadRequestException "Conversion has failed. Please use a new reference.")
        end
    | None =>
        rateInfo <- getRate fromCurrency toCurrency ;;
        convertedAmount <- convertAmount amount (rate rateInfo) ;;
        startTransaction ;;
        finally
          (tryCatch
             (let transaction :=
                mkTransaction userId CONVERT (Some fromCurrency) (Some amount)
                  (Some toCurrency) (Some convertedAmount) (Some (rate rateInfo))
                  PENDING reference
                  (ConvertMetadata (source rateInfo) (timestamp rateInfo)
                                   (ageSeconds rateInfo) (warning rateInfo))
                  None in
              manager_insert_Transaction transaction ;;
              deductBalance userId fromCurrency amount ;;
              addBalance userId toCurrency convertedAmount ;;
              let transaction := withStatus transaction COMPLETED in
              manager_update_Transaction transaction ;;
              commitTransaction ;;
              ret (Converted "Currency converted successfully" transaction rateInfo))
             (fun error =>
                rollbackTransaction ;;
                tryCatch
                  (failedTransaction <- transactionRepository_findOne reference ;;
                   match failedTransaction with
                   | Some failedTransaction =>
                       if decide (status failedTransaction = PENDING) then
                         transactionRepository_save
                           (withFailure failedTransaction (message_of error))
                       else ret tt
                   | None => ret tt
                   end)
                  (fun updateError => ret tt) ;;
                throw error))
          release
    end.

(** [TradingService.tradeCurrency]: an alias. *)
Definition tradeCurrency (userId : string) (convertDto : ConvertCurrencyDto)
    : IO ConvertResult :=
  convertCurrency userId convertDto.

(** ** Vocabulary of the statements *)

(** The text reads as a number that is not negative. *)
Definition nonNegativeText (s : string) : Prop :=
  exists d, newDecimal s = Some d /\ 0 <= coef d.

(** The text does not read as a negative number (text that is no number
    makes the services throw before they write). *)
Definition notNegative (s : string) : Prop :=
  forall d, newDecimal s = Some d -> 0 <= coef d.

(** [notNegative], computed. *)
Definition readsNotNegative (s : string) : bool :=
  match newDecimal s with
  | Some d => 0 <=? coef d
  | None => true
  end.

Definition balancesNonNegative (ws : gmap (string * Currency) Wallet) : Prop :=
  forall key wl, ws !! key = Some wl -> nonNegativeText (balance wl).

(** No balance is negative, in the database and in the open transaction. *)
Definition ledgerNonNegative (w : World) : Prop :=
  balancesNonNegative (wallets (committed w))
  /\ forall t, working w = Some t -> balancesNonNegative (wallets t).

(** No rate at hand is negative: cached, stored, or quoted by the provider. *)
Definition ratesNotNegative (w : World) : Prop :=
  (forall key e, cache w !! key = Some e -> notNegative (rate (cached e)))
  /\ (forall row, In row (fxRates (committed w)) -> notNegative (fx_rate row))
  /\ (forall base rates quote r,
         api w base = Some rates -> rates quote = Some r -> 0 <= coef r).

(** The wallet found by a locked read, or the one created when none is. *)
Definition orCreate (found : option Wallet) : Wallet :=
  match found with Some wl => wl | None => walletRepository_create end.

Definition savedVersion (found : option Wallet) : Z :=
  match found with Some old => version old + 1 | None => 1 end.

(** The journal row convertCurrency inserts. *)
Definition pendingConversion (user : string) (dto : ConvertCurrencyDto)
    (convertedAmount : string) (ri : FxRateInfo) : Transaction :=
  mkTransaction user CONVERT (Some (dto_fromCurrency dto)) (Some (dto_amount dto))
    (Some (dto_toCurrency dto)) (Some convertedAmount) (Some (rate ri)) PENDING
    (dto_reference dto)
    (ConvertMetadata (source ri) (timestamp ri) (ageSeconds ri) (warning ri)) None.

(** The calls of a conversion's unit of work that commits. *)
Definition unitOfWorkCalls (user : string) (dto : ConvertCurrencyDto) : list Event :=
  [ StartTransaction;
    TransactionSave (dto_reference dto) PENDING;
    WalletLock user (dto_fromCurrency dto);
    WalletSave user (dto_fromCurrency dto);
    WalletLock user (dto_toCurrency dto);
    WalletSave user (dto_toCurrency dto);
    TransactionSave (dto_reference dto) COMPLETED;
    CommitTransaction;
    Release ].

Definition isWalletCall (e : Event) : bool :=
  match e with WalletLock _ _ | WalletSave _ _ => true | _ => false end.

(** The calls on wallet rows, in order. *)
Definition walletCalls (evs : list Event) : list Event := List.filter isWalletCall evs.

(** The currencies of the rows locked, in the order of the locks. *)
Fixpoint lockOrder (evs : list Event) : list Currency :=
  match evs with
  | [] => []
  | WalletLock _ c :: rest => c :: lockOrder rest
  | _ :: rest => lockOrder rest
  end.

(** The currencies come in the order of their codes. *)
Fixpoint inCodeOrder (cs : list Currency) : bool :=
  match cs with
  | c1 :: ((c2 :: _) as rest) => String.leb (code c1) (code c2) && inCodeOrder rest
  | _ => true
  end.

(** No row is locked after a row was saved: every lock precedes every
    mutation. *)
Fixpoint locksPrecedeSaves (evs : list Event) : bool :=
  match evs with
  | [] => true
  | WalletSave _ _ :: rest =>
      forallb (fun e => match e with WalletLock _ _ => false | _ => true end) rest
      && locksPrecedeSaves rest
  | _ :: rest => locksPrecedeSaves rest
  end.

(** What getRate throws when no tier gives a rate. *)
Definition rateUnavailable : Exception :=
  Error "Exchange rate service unavailable. Please try again later.".

(** The cache tier answers. *)
Definition cacheHit (key : string) (w : World) : bool :=
  match cache w !! key with
  | Some e => now w <? expiresAt e
  | None => false
  end.

(** The provider tier answers: the request succeeds and quotes a rate. *)
Definition providerAnswers (fromCurrency toCurrency : Currency) (w : World) : bool :=
  match api w fromCurrency with
  | Some rates =>
      match rates toCurrency with
      | Some r => negb (coef r =? 0)
      | None => false
      end
  | None => false
  end.

(** Ledger operations, to speak of sequences of them.  Credit and debit act
    on the open transaction, so the sequences may open and close one. *)
Inductive Operation :=
| FundOp (user : string) (dto : FundWalletDto)
| ConvertOp (user : string) (dto : ConvertCurrencyDto)
| CreditOp (user : string) (c : Currency) (amount : string)
| DebitOp (user : string) (c : Currency) (amount : string)
| BeginOp
| CommitOp
| RollbackOp.

Definition perform (op : Operation) (w : World) : World :=
  match op with
  | FundOp user dto => snd (fundWallet user dto w)
  | ConvertOp user dto => snd (convertCurrency user dto w)
  | CreditOp user c amount => snd (addBalance user c amount w)
  | DebitOp user c amount => snd (deductBalance user c amount w)
  | BeginOp => snd (startTransaction w)
  | CommitOp => snd (commitTransaction w)
  | RollbackOp => snd (rollbackTransaction w)
  end.

(** The operation credits nothing negative: its amount is not negative and,
    for a conversion, neither is any rate at hand. *)
Definition creditsNotNegative (op : Operation) (w : World) : Prop :=
  match op with
  | FundOp _ dto => notNegative (fund_amount dto)
  | ConvertOp _ dto => notNegative (dto_amount dto) /\ ratesNotNegative w
  | CreditOp _ _ amount => notNegative amount
  | DebitOp _ _ _ | BeginOp | CommitOp | RollbackOp => True
  end.

Fixpoint performAll (ops : list Operation) (w : World) : World :=
  match ops with
  | [] => w
  | op :: rest => performAll rest (perform op w)
  end.

Fixpoint allCreditsNotNegative (ops : list Operation) (w : World) : Prop :=
  match ops with
  | [] => True
  | op :: rest => creditsNotNegative op w /\ allCreditsNotNegative rest (perform op w)
  end.

(** ** Worlds of the examples *)

Definition emptyDb : Db := mkDb ∅ ∅ [].

(** A provider that quotes one pair, and one that is down. *)
Definition quoting (base quote : Currency) (r : Decimal)
    : Currency -> option (Currency -> option Decimal) :=
  fun b => if decide (b = base)
           then Some (fun q => if decide (q = quote) then Some r else None)
           else None.

Definition providerDown : Currency -> option (Currency -> option Decimal) :=
  fun _ => None.

(** An empty database, an empty cache, the clock at 1000 s. *)
Definition freshWorld (provider : Currency -> option (Currency -> option Decimal))
    : World :=
  mkWorld emptyDb None ∅ provider 1000000 60 [].

(** The scenario of the specification: U1 funds 50000.00 NGN under "ref-1"
    while the provider quotes NGN to USD at 0.00065 ... *)
Definition u1Funded : World :=
  snd (fundWallet "U1" (mkFundWalletDto NGN "50000" "ref-1")
         (freshWorld (quoting NGN USD (mkDecimal 65 5)))).

(** ... and converts 10000.00 NGN to USD under "ref-2". *)
Definition u1Converted : World :=
  snd (convertCurrency "U1" (mkConvertCurrencyDto NGN USD "10000" "ref-2") u1Funded).

(** One stored NGN to USD rate fetched at time 0, the provider down, and the
    clock at [clock] milliseconds. *)
Definition fallbackWorld (clock : Z) : World :=
  mkWorld (mkDb ∅ ∅ [mkFxRate NGN USD "0.000650" "exchangerate-api" 0])
          None ∅ providerDown clock 60 [].

(** U1 holds 1.00 NGN and 10.00 USD, inside an open transaction. *)
Definition smallLedger : Db :=
  mkDb (<[("U1", USD) := mkWallet "10.00" "0.00" 1]>
          (<[("U1", NGN) := mkWallet "1.00" "0.00" 1]> ∅)) ∅ [].

Definition smallWorld : World :=
  mkWorld smallLedger (Some smallLedger) ∅ (quoting USD NGN (mkDecimal 1500 0))
          1000000 60 [].

(** The same ledger with no transaction open. *)
Definition smallWorldIdle : World :=
  mkWorld smallLedger None ∅ (quoting USD NGN (mkDecimal 1500 0)) 1000000 60 [].

(** A sequence of every kind of operation, for the examples. *)
Definition sampleOperations : list Operation :=
  [ FundOp "U1" (mkFundWalletDto NGN "50000" "ref-1");
    ConvertOp "U1" (mkConvertCurrencyDto NGN USD "10000" "ref-2");
    BeginOp;
    DebitOp "U1" NGN "0.015";
    CreditOp "U1" EUR "12.5";
    DebitOp "U1" USD "7";
    CommitOp;
    ConvertOp "U1" (mkConvertCurrencyDto NGN USD "0.01" "ref-3") ].

(** ** The reading side of the services *)

(** [x.greaterThanOrEqualTo(y)] (decimal.js). *)
Definition greaterThanOrEqualTo (x y : Decimal) : bool :=
  coef y * pow10 (scale x) <=? coef x * pow10 (scale y).

(** [walletRepository.findOne({ where: { userId, currency } })]: a plain
    read of the committed row.  The log keeps the calls of the funding, the
    conversion and the rate paths; this read is not one of them. *)
Definition walletRepository_findOne (userId : string) (currency : Currency)
    : IO (option Wallet) :=
  fun w => (Returned (wallets (committed w) !! (userId, currency)), w).

(** [walletRepository.save(wallet)] for the wallet of (userId, currency):
    INSERT or UPDATE of that row outside any transaction; the entity comes
    back with its version. *)
Definition walletRepository_save (userId : string) (currency : Currency) (wl : Wallet)
    : IO Wallet :=
  emit (WalletSave userId currency) ;;
  fun w =>
    let v := match wallets (committed w) !! (userId, currency) with
             | Some old => version old + 1
             | None => 1
             end in
    let saved := mkWallet (balance wl) (lockedBalance wl) v in
    (Returned saved,
     setCommitted (setWallets (<[(userId, currency) := saved]> (wallets (committed w)))
                              (committed w)) w).

(** [walletRepository.find({ where: { userId }, order: { currency: "ASC" } })]:
    the rows of the user, one per currency at most (the unique index), in the
    order of the column's enum type, which PostgreSQL sorts as its values
    were declared.  A row is shown with its currency. *)
Definition walletRepository_find (userId : string) : IO (list (Currency * Wallet)) :=
  fun w =>
    (Returned (omap (fun c => pair c <$> wallets (committed w) !! (userId, c))
                    [NGN; USD; EUR; GBP]), w).

(** [WalletService.getOrCreateWallet(userId, currency)]. *)
Definition getOrCreateWallet (userId : string) (currency : Currency) : IO Wallet :=
  wallet <- walletRepository_findOne userId currency ;;
  match wallet with
  | Some wallet => ret wallet
  | None => walletRepository_save userId currency walletRepository_create
  end.

(** [WalletService.getUserWallets(userId)]. *)
Definition getUserWallets (userId : string) : IO (list (Currency * Wallet)) :=
  walletRepository_find userId.

(** [WalletService.getWalletBalance(userId, currency)]. *)
Definition getWalletBalance (userId : string) (currency : Currency) : IO Wallet :=
  wallet <- walletRepository_findOne userId currency ;;
  match wallet with
  | Some wallet => ret wallet
  | None => throw (NotFoundException ("Wallet not found for currency " +:+ code currency))
  end.

(** [WalletService.checkSufficientBalance(userId, currency, amount)]. *)
Definition checkSufficientBalance (userId : string) (currency : Currency) (amount : string)
    : IO bool :=
  wallet <- walletRepository_findOne userId currency ;;
  match wallet with
  | None => ret false
  | Some wallet =>
      balance <- new_Decimal (balance wallet) ;;
      requiredAmount <- new_Decimal amount ;;
      ret (greaterThanOrEqualTo balance requiredAmount)
  end.

(** What getConversionPreview resolves to. *)
Record ConversionPreview := mkConversionPreview {
  preview_fromCurrency : Currency;
  preview_fromAmount : string;
  preview_toCurrency : Currency;
  preview_toAmount : string;
  preview_rate : string;
  preview_rateTimestamp : Z;
  preview_rateAgeSeconds : Z;
  preview_rateSource : string;
  preview_warning : option string;
  preview_note : string
}.

(** [TradingService.getConversionPreview(fromCurrency, toCurrency, amount)],
    [amount] being the text of the number as in the request bodies. *)
Definition getConversionPreview (fromCurrency toCurrency : Currency) (amount : string)
    : IO ConversionPreview :=
  if decide (fromCurrency = toCurrency) then
    throw (BadRequestException "Cannot convert to the same currency")
  else
    rateInfo <- getRate fromCurrency toCurrency ;;
    convertedAmount <- convertAmount amount (rate rateInfo) ;;
    ret (mkConversionPreview fromCurrency amount toCurrency convertedAmount
           (rate rateInfo) (timestamp rateInfo) (ageSeconds rateInfo) (source rateInfo)
           (warning rateInfo)
           "This is a preview. Actual rate may differ at the time of conversion.").

(** ** Vocabulary of the further statements *)

(** Every row of the journal is COMPLETED. *)
Definition journalCompleted (ts : gmap string Transaction) : Prop :=
  forall ref tr, ts !! ref = Some tr -> status tr = COMPLETED.

(** The text reads as a number written with two decimals. *)
Definition twoDecimals (s : string) : Prop :=
  exists d, newDecimal s = Some d /\ scale d = 2%nat.

Definition balancesTwoDecimals (ws : gmap (string * Currency) Wallet) : Prop :=
  forall key wl, ws !! key = Some wl -> twoDecimals (balance wl).

(** The number a decimal denotes, in units of [10^-dp]: an integer when the
    decimal has no more than [dp] decimals. *)
Definition unitsOf (dp : nat) (d : Decimal) : Z := coef d * pow10 (dp - scale d).

(** The journal row and the calls of a funding that commits. *)
Definition completedFunding (user : string) (dto : FundWalletDto) : Transaction :=
  mkTransaction user FUND None None (Some (fund_currency dto)) (Some (fund_amount dto))
    None COMPLETED (fund_reference dto) (FundMetadata "direct") None.

Definition fundingCalls (user : string) (dto : FundWalletDto) : list Event :=
  [ TransactionFindOne (fund_reference dto);
    StartTransaction;
    TransactionSave (fund_reference dto) PENDING;
    WalletLock user (fund_currency dto);
    WalletSave user (fund_currency dto);
    TransactionSave (fund_reference dto) COMPLETED;
    CommitTransaction;
    Release ].

(** A property of the wallets and one of the journal hold of a database. *)
Definition holdsOf (PW : gmap (string * Currency) Wallet -> Prop)
    (PJ : gmap string Transaction -> Prop) (d : Db) : Prop :=
  PW (wallets d) /\ PJ (transactions d).

(** They hold of the database and of the open transaction's copy. *)
Definition holdsThroughout (PW : gmap (string * Currency) Wallet -> Prop)
    (PJ : gmap string Transaction -> Prop) (w : World) : Prop :=
  holdsOf PW PJ (committed w) /\ forall t, working w = Some t -> holdsOf PW PJ t.

(** The world [ms] milliseconds later, nothing else having changed. *)
Definition later (ms : Z) (w : World) : World :=
  mkWorld (committed w) (working w) (cache w) (api w) (now w + ms) (cacheTTL w) (log w).

(** The world in which the provider answers as [provider] does. *)
Definition withProvider (provider : Currency -> option (Currency -> option Decimal))
    (w : World) : World :=
  mkWorld (committed w) (working w) (cache w) provider (now w) (cacheTTL w) (log w).

(** Two worlds that differ in their logs at most. *)
Definition sameState (w1 w2 : World) : Prop :=
  committed w1 = committed w2 /\ working w1 = working w2 /\ cache w1 = cache w2
  /\ api w1 = api w2 /\ now w1 = now w2 /\ cacheTTL w1 = cacheTTL w2.

(** The row is of the pair. *)
Definition ofPair (src dst : Currency) (row : FxRate) : Prop :=
  fx_fromCurrency row = src /\ fx_toCurrency row = dst.

(** The rate fetchFromApi makes of the provider's quote. *)
Definition fetchedRate (src dst : Currency) (r : Decimal) (w : World) : FxRateInfo :=
  mkFxRateInfo src dst (toFixed 6 r) (now w) 0 "exchangerate-api" None.

(** The world getRate leaves when it fetched the quote [r]: the rate is in
    the cache for the time to live, and one more row is in the rate
    history. *)
Definition afterFetch (src dst : Currency) (r : Decimal) (w : World) : World :=
  mkWorld
    (setFxRates (fxRates (committed w)
                 ++ [mkFxRate src dst (toFixed 6 r) "exchangerate-api" (now w)])
                (committed w))
    (working w)
    (<[cacheKeyOf src dst := mkCacheEntry (fetchedRate src dst r w)
                                          (now w + cacheTTL w * 1000)]> (cache w))
    (api w) (now w) (cacheTTL w)
    (log w ++ [CacheGet (cacheKeyOf src dst); HttpGet src; CacheSet (cacheKeyOf src dst);
               FxRateSave src dst]).

(** * Facts *)

(** ** decimal.js *)

Example toFixed_6_5 : toFixed 2 (mkDecimal 65 1) = "6.50"%string.
Proof. reflexivity. Qed.

Example toFixed_half_up : toFixed 2 (mkDecimal 985 3) = "0.99"%string.
Proof. reflexivity. Qed.

Example toFixed_small_negative : toFixed 2 (mkDecimal (-1) 3) = "-0.00"%string.
Proof. reflexivity. Qed.

Example newDecimal_rate : newDecimal "0.000650" = Some (mkDecimal 650 6).
Proof. reflexivity. Qed.

Example newDecimal_integer : newDecimal "10000" = Some (mkDecimal 10000 0).
Proof. reflexivity. Qed.

Example newDecimal_bad : newDecimal "12a" = None.
Proof. reflexivity. Qed.

Section DecimalFacts.

Lemma pow10_0 : pow10 0 = 1.
Proof. reflexivity. Qed.

Lemma pow10_S k : pow10 (S k) = 10 * pow10 k.
Proof. unfold pow10. rewrite Nat2Z.inj_succ, Z.pow_succ_r by lia. reflexivity. Qed.

Lemma pow10_pos k : 0 < pow10 k.
Proof. unfold pow10. apply Z.pow_pos_nonneg; lia. Qed.

Lemma pow10_add a b : pow10 (a + b) = pow10 a * pow10 b.
Proof. unfold pow10. rewrite Nat2Z.inj_add, Z.pow_add_r by lia. reflexivity. Qed.

Lemma append_String c s r : String c s +:+ r = String c (s +:+ r).
Proof. reflexivity. Qed.

Lemma append_Empty r : EmptyString +:+ r = r.
Proof. reflexivity. Qed.

Lemma digitOf_digitChar d : 0 <= d < 10 -> digitOf (digitChar d) = Some d.
Proof.
  intros H.
  assert (d = 0 \/ d = 1 \/ d = 2 \/ d = 3 \/ d = 4 \/ d = 5 \/ d = 6 \/ d = 7
          \/ d = 8 \/ d = 9) as Hd by lia.
  repeat (destruct Hd as [-> | Hd]; [reflexivity |]). subst d. reflexivity.
Qed.

Lemma low_digits k n :
  0 <= n -> (n / pow10 k) mod 10 * pow10 k + n mod pow10 k = n mod pow10 (S k).
Proof.
  intros Hn. pose proof (pow10_pos k) as Hk.
  rewrite pow10_S, (Z.mul_comm 10), Z.rem_mul_r by lia. lia.
Qed.

Lemma readDigits_showDigits k : forall n rest acc cnt,
  0 <= n ->
  readDigits (showDigits k n +:+ rest) acc cnt
  = readDigits rest (acc * pow10 k + n mod pow10 k) (cnt + k).
Proof.
  induction k as [| k IH]; intros n rest acc cnt Hn.
  - cbn [showDigits]. rewrite append_Empty, pow10_0, Z.mod_1_r.
    f_equal; lia.
  - cbn [showDigits]. rewrite append_String. cbn [readDigits].
    rewrite digitOf_digitChar by (apply Z.mod_pos_bound; lia).
    rewrite IH by exact Hn. f_equal.
    + rewrite <- (low_digits k n Hn), pow10_S. ring.
    + lia.
Qed.

Lemma append_nil s : s +:+ EmptyString = s.
Proof. induction s as [| c s IH]; [reflexivity |]. rewrite append_String, IH. reflexivity. Qed.

Lemma readDigits_showDigits_end k n acc cnt :
  0 <= n ->
  readDigits (showDigits k n) acc cnt
  = (acc * pow10 k + n mod pow10 k, (cnt + k)%nat, EmptyString).
Proof.
  intros Hn. rewrite <- (append_nil (showDigits k n)) at 1.
  rewrite readDigits_showDigits by exact Hn. reflexivity.
Qed.

Lemma countDigits_bound fuel : forall n,
  0 <= n < 10 * 2 ^ Z.of_nat fuel -> n < pow10 (countDigits fuel n).
Proof.
  induction fuel as [| f IH]; intros n Hn.
  - cbn [countDigits]. change (pow10 1) with 10. change (2 ^ Z.of_nat 0) with 1 in Hn. lia.
  - cbn [countDigits]. destruct (Z.ltb_spec n 10) as [Hlt | Hge].
    + change (pow10 1) with 10. lia.
    + rewrite pow10_S.
      assert (n / 10 < pow10 (countDigits f (n / 10))) as Hq.
      { apply IH. rewrite Nat2Z.inj_succ, Z.pow_succ_r in Hn by lia.
        split; [apply Z.div_pos; lia |].
        apply Z.div_lt_upper_bound; lia. }
      pose proof (Z.div_mod n 10 ltac:(lia)) as Hdm.
      pose proof (Z.mod_pos_bound n 10 ltac:(lia)). lia.
Qed.

Lemma numDigits_bound n : 0 <= n -> n < pow10 (numDigits n).
Proof.
  intros Hn. unfold numDigits. apply countDigits_bound.
  split; [exact Hn |].
  destruct (Z.eq_dec n 0) as [-> | Hnz].
  - cbn. lia.
  - pose proof (Z.log2_spec n ltac:(lia)) as [_ Hup].
    rewrite Z2Nat.id by apply Z.log2_nonneg.
    rewrite Z.pow_succ_r in Hup by apply Z.log2_nonneg. lia.
Qed.

Lemma numDigits_pos n : (1 <= numDigits n)%nat.
Proof.
  unfold numDigits. generalize (Z.to_nat (Z.log2 n)). intros f.
  destruct f; cbn [countDigits]; [lia |]. destruct (n <? 10); lia.
Qed.

Lemma readDigits_showNat n rest acc cnt :
  0 <= n ->
  readDigits (showNat n +:+ rest) acc cnt
  = readDigits rest (acc * pow10 (numDigits n) + n) (cnt + numDigits n).
Proof.
  intros Hn. unfold showNat. rewrite readDigits_showDigits by exact Hn.
  rewrite Z.mod_small by (split; [exact Hn | apply numDigits_bound; exact Hn]).
  reflexivity.
Qed.

Lemma parseUnsigned_showFixed dp r :
  0 <= r -> parseUnsigned (showFixed dp r) = Some (mkDecimal r dp).
Proof.
  intros Hr. pose proof (pow10_pos dp) as Hp.
  assert (0 <= r / pow10 dp) as Hq by (apply Z.div_pos; lia).
  pose proof (numDigits_pos (r / pow10 dp)) as Hnd.
  unfold parseUnsigned, showFixed. rewrite readDigits_showNat by exact Hq.
  destruct dp as [| dp].
  - cbn [readDigits]. rewrite pow10_0, Z.div_1_r.
    destruct (0 + numDigits r)%nat eqn:E.
    + rewrite pow10_0, Z.div_1_r in Hnd. lia.
    + cbn [Nat.eqb]. reflexivity.
  - cbn [readDigits]. change (digitOf ".") with (@None Z).
    cbn [Ascii.eqb Bool.eqb].
    rewrite readDigits_showDigits_end by exact Hr.
    destruct ((0 + numDigits (r / pow10 (S dp)) + (0 + S dp))%nat) eqn:E; [lia |].
    cbn [Nat.eqb]. do 2 f_equal.
    pose proof (Z.div_mod r (pow10 (S dp)) ltac:(lia)). lia.
Qed.

Lemma rescale_nonneg dp d : 0 <= rescale dp d.
Proof.
  unfold rescale. destruct (scale d <=? dp)%nat.
  - pose proof (pow10_pos (dp - scale d)). nia.
  - pose proof (pow10_pos (scale d - dp)). apply Z.div_pos; lia.
Qed.

Lemma showFixed_head dp r : exists c s, showFixed dp r = String c s /\ Ascii.eqb c "-" = false.
Proof.
  unfold showFixed, showNat. pose proof (numDigits_pos (r / pow10 dp)) as H.
  destruct (numDigits (r / pow10 dp)) as [| k]; [lia |].
  cbn [showDigits String.append]. eexists _, _. split; [reflexivity |].
  generalize ((r / pow10 dp / pow10 k) mod 10). intros z.
  unfold digitChar. destruct z as [| p | p]; try reflexivity.
  do 4 (destruct p as [p | p |]; try reflexivity).
Qed.

(** Reading back what [toFixed] printed gives the rounded value. *)
Lemma newDecimal_toFixed dp d :
  newDecimal (toFixed dp d)
  = Some (mkDecimal (if isNeg d then - rescale dp d else rescale dp d) dp).
Proof.
  pose proof (rescale_nonneg dp d) as Hr. unfold toFixed.
  destruct (isNeg d).
  - cbn [newDecimal Ascii.eqb Bool.eqb]. rewrite parseUnsigned_showFixed by exact Hr.
    reflexivity.
  - destruct (showFixed_head dp (rescale dp d)) as (c & s & E & Hc).
    pose proof (parseUnsigned_showFixed dp (rescale dp d) Hr) as P.
    rewrite E in *. cbn [newDecimal]. rewrite Hc. exact P.
Qed.

End DecimalFacts.

Lemma pow10_split (a b : nat) : (a <= b)%nat -> pow10 b = pow10 (b - a) * pow10 a.
Proof. intros H. rewrite <- pow10_add. f_equal. lia. Qed.

Lemma rescale_exact dp x :
  (scale x <= dp)%nat -> rescale dp x = Z.abs (coef x) * pow10 (dp - scale x).
Proof.
  intros H. unfold rescale. destruct (Nat.leb_spec (scale x) dp); [reflexivity | lia].
Qed.

(** A value with at most [dp] decimals is printed by [toFixed dp] without
    loss. *)
Lemma toFixed_exact dp x :
  (scale x <= dp)%nat ->
  exists d, newDecimal (toFixed dp x) = Some d /\ Deq d x /\ scale d = dp.
Proof.
  intros H. rewrite newDecimal_toFixed. eexists. split; [reflexivity |].
  split; [| reflexivity]. unfold Deq, isNeg. cbn [coef scale].
  rewrite rescale_exact by exact H. rewrite (pow10_split (scale x) dp H).
  destruct (Z.ltb_spec (coef x) 0); lia.
Qed.

Lemma minus_nonneg b a : lessThan b a = false -> 0 <= coef (minus b a).
Proof.
  unfold lessThan, minus. cbn [coef]. intros H. apply Z.ltb_ge in H.
  pose proof (pow10_pos (scale a)). pose proof (pow10_pos (scale b)).
  destruct (Nat.max_spec (scale b) (scale a)) as [[Hlt ->] | [Hle ->]].
  - replace (scale a - scale a)%nat with 0%nat by lia.
    rewrite pow10_0, (pow10_split (scale b) (scale a)) in * by lia.
    pose proof (pow10_pos (scale a - scale b)). nia.
  - replace (scale b - scale b)%nat with 0%nat by lia.
    rewrite pow10_0, (pow10_split (scale a) (scale b)) in * by lia.
    pose proof (pow10_pos (scale b - scale a)). nia.
Qed.

Lemma plus_nonneg x y : 0 <= coef x -> 0 <= coef y -> 0 <= coef (plus x y).
Proof.
  intros Hx Hy. unfold plus. cbn [coef].
  pose proof (pow10_pos (Nat.max (scale x) (scale y) - scale x)).
  pose proof (pow10_pos (Nat.max (scale x) (scale y) - scale y)). nia.
Qed.

Lemma times_nonneg x y : 0 <= coef x -> 0 <= coef y -> 0 <= coef (times x y).
Proof. intros Hx Hy. unfold times. cbn [coef]. nia. Qed.

Lemma toFixed_nonNegative dp x : 0 <= coef x -> nonNegativeText (toFixed dp x).
Proof.
  intros H. exists (mkDecimal (rescale dp x) dp). split; [| apply rescale_nonneg].
  rewrite newDecimal_toFixed. unfold isNeg.
  destruct (Z.ltb_spec (coef x) 0); [lia | reflexivity].
Qed.

(** ** The services, call by call *)

(** Unfolds the calls of the services down to the world they act on. *)
Ltac run_io :=
  unfold deductBalance, addBalance, convertAmount, manager_findOne_Wallet,
    manager_save_Wallet, manager_insert_Transaction, manager_update_Transaction,
    transactionRepository_findOne, transactionRepository_save,
    startTransaction, commitTransaction, rollbackTransaction, release,
    cacheManager_get, cacheManager_set, fetchFromApi, saveRateToDatabase,
    getLastKnownRate, getTime, getCacheTTL,
    new_Decimal, tryCatch, finally, bind, ret, throw, emit,
    current, setCurrent in *.

(** Case analysis on the next scrutinee of a run that is a hypothesis. *)
Ltac next_case H :=
  match type of H with
  | context [match ?x with _ => _ end] =>
      lazymatch x with
      | context [match _ with _ => _ end] => fail
      | _ => destruct x eqn:?
      end
  end.

Lemma deductBalance_run user c amount w t wl b a :
  working w = Some t ->
  wallets t !! (user, c) = Some wl ->
  newDecimal (balance wl) = Some b ->
  newDecimal amount = Some a ->
  lessThan b a = false ->
  let saved := mkWallet (toFixed 2 (minus b a)) (lockedBalance wl) (version wl + 1) in
  deductBalance user c amount w
  = (Returned saved,
     setWorking (Some (setWallets (<[(user, c) := saved]> (wallets t)) t))
       (logged (WalletSave user c) (logged (WalletLock user c) w))).
Proof.
  intros Hw Hl Hb Ha Hlt saved. run_io.
  cbn. rewrite Hw, Hl, Hb. cbn. rewrite Ha. cbn. rewrite Hlt. cbn.
  rewrite Hw, Hl. reflexivity.
Qed.

Lemma getRate_frame src dst w r w' :
  getRate src dst w = (r, w') ->
  wallets (committed w') = wallets (committed w)
  /\ transactions (committed w') = transactions (committed w)
  /\ working w' = working w.
Proof.
  intros H. unfold getRate in H. run_io.
  repeat (cbn in H; first [ next_case H | injection H as <- <- ]); cbn; auto.
Qed.

Section CompletedConversion.

(** A conversion between two distinct currencies, under a reference the
    journal does not know, for which a rate is resolved, whose amount and
    rate read as numbers, whose source wallet exists and holds enough, and
    whose destination wallet (as found or as created) has a balance that
    reads as a number. *)
Variables (user : string) (dto : ConvertCurrencyDto) (w : World).
Variables (ri : FxRateInfo) (w1 : World) (a r : Decimal).
Variables (wl : Wallet) (b bd : Decimal).

Hypothesis distinct : dto_fromCurrency dto <> dto_toCurrency dto.
Hypothesis unknown : transactions (committed w) !! dto_reference dto = None.
Hypothesis resolved :
  getRate (dto_fromCurrency dto) (dto_toCurrency dto)
          (logged (TransactionFindOne (dto_reference dto)) w) = (Returned ri, w1).
Hypothesis amount_reads : newDecimal (dto_amount dto) = Some a.
Hypothesis rate_reads : newDecimal (rate ri) = Some r.
Hypothesis source_wallet :
  wallets (committed w) !! (user, dto_fromCurrency dto) = Some wl.
Hypothesis source_reads : newDecimal (balance wl) = Some b.
Hypothesis sufficient : lessThan b a = false.
Hypothesis destination_reads :
  newDecimal (balance (orCreate (wallets (committed w) !! (user, dto_toCurrency dto))))
  = Some bd.

(** It returns, and this is what it leaves. *)
Lemma convertCurrency_run :
  let found := wallets (committed w) !! (user, dto_toCurrency dto) in
  let convertedAmount := toFixed 2 (times a r) in
  let credit := mkDecimal (if isNeg (times a r) then - rescale 2 (times a r)
                           else rescale 2 (times a r)) 2 in
  let debited := mkWallet (toFixed 2 (minus b a)) (lockedBalance wl) (version wl + 1) in
  let credited := mkWallet (toFixed 2 (plus bd credit)) (lockedBalance (orCreate found))
                           (savedVersion found) in
  let done := withStatus (pendingConversion user dto convertedAmount ri) COMPLETED in
  exists w',
    convertCurrency user dto w
    = (Returned (Converted "Currency converted successfully" done ri), w')
    /\ wallets (committed w')
       = <[(user, dto_toCurrency dto) := credited]>
           (<[(user, dto_fromCurrency dto) := debited]> (wallets (committed w)))
    /\ transactions (committed w')
       = <[dto_reference dto := done]> (transactions (committed w))
    /\ working w' = None
    /\ log w' = log w1 ++ unitOfWorkCalls user dto.
Proof.
  intros found convertedAmount credit debited credited done.
  destruct (getRate_frame _ _ _ _ _ resolved) as (Fw & Ft & _). cbn in Fw, Ft.
  unfold convertCurrency. destruct (decide _) as [? | _]; [contradiction |].
  run_io. cbn. rewrite unknown, resolved. cbn. rewrite amount_reads. cbn.
  rewrite rate_reads. cbn. rewrite Ft, unknown.
  cbn. rewrite Fw, source_wallet. cbn. rewrite source_reads. cbn.
  rewrite sufficient. cbn.
  rewrite lookup_insert_ne by congruence. rewrite ?Fw. fold found.
  change (match found with Some wl0 => wl0 | None => walletRepository_create end)
    with (orCreate found).
  unfold found at 1. rewrite destination_reads. rewrite newDecimal_toFixed. cbn.
  rewrite ?lookup_insert_ne by congruence. rewrite ?Fw, ?Ft.
  eexists. split; [reflexivity |]. cbn.
  rewrite ?insert_insert_eq, ?source_wallet, <- ?app_assoc. repeat split; reflexivity.
Qed.

End CompletedConversion.

(** A branch of convertCurrency that throws inside the unit of work, in a run
    [H] that returned: after the rollback the handler finds no row to mark
    ([Ft], [Href]) and throws again. *)
Ltac thrown H Ft Href := rewrite ?Ft, ?Href in H; discriminate H.

(** The same branch in any run [H]: [leaf] says what a rolled-back run
    leaves. *)
Ltac rolled_back H leaf Ft Href :=
  rewrite ?Ft, ?Href in H; eapply leaf; [| | exact H]; reflexivity.

Lemma convertCurrency_Converted_inv user dto w m tr ri w' :
  convertCurrency user dto w = (Returned (Converted m tr ri), w') ->
  exists w1 a r wl b bd,
    dto_fromCurrency dto <> dto_toCurrency dto
    /\ transactions (committed w) !! dto_reference dto = None
    /\ getRate (dto_fromCurrency dto) (dto_toCurrency dto)
          (logged (TransactionFindOne (dto_reference dto)) w) = (Returned ri, w1)
    /\ newDecimal (dto_amount dto) = Some a
    /\ newDecimal (rate ri) = Some r
    /\ wallets (committed w) !! (user, dto_fromCurrency dto) = Some wl
    /\ newDecimal (balance wl) = Some b
    /\ lessThan b a = false
    /\ newDecimal (balance (orCreate (wallets (committed w) !! (user, dto_toCurrency dto))))
       = Some bd.
Proof.
  intros H. unfold convertCurrency in H.
  destruct (decide _) as [? | Hne]; [discriminate |].
  run_io. cbn in H.
  destruct (transactions (committed w) !! dto_reference dto) eqn:Href.
  { destruct (status t); discriminate. }
  destruct (getRate _ _ _) as [[ri' | e] w1] eqn:Hrate; [| discriminate].
  destruct (getRate_frame _ _ _ _ _ Hrate) as (Fw & Ft & _). cbn in Fw, Ft.
  destruct (newDecimal (dto_amount dto)) as [a |] eqn:Ha; [| discriminate].
  cbn in H.
  destruct (newDecimal (rate ri')) as [r |] eqn:Hr; [| discriminate].
  cbn in H. rewrite Ft, Href in H. cbn in H. rewrite Fw in H.
  destruct (wallets (committed w) !! (user, dto_fromCurrency dto)) as [wl |] eqn:Hwl;
    cbn in H; [| thrown H Ft Href].
  destruct (newDecimal (balance wl)) as [b |] eqn:Hb;
    cbn in H; [| thrown H Ft Href].
  destruct (lessThan b a) eqn:Hlt;
    cbn in H; [thrown H Ft Href |].
  rewrite lookup_insert_ne, Fw in H by congruence.
  change (match wallets (committed w) !! (user, dto_toCurrency dto) with
          | Some wl0 => wl0 | None => walletRepository_create end)
    with (orCreate (wallets (committed w) !! (user, dto_toCurrency dto))) in H.
  destruct (newDecimal (balance (orCreate (wallets (committed w) !! (user, dto_toCurrency dto)))))
    as [bd |] eqn:Hbd; cbn in H; [| thrown H Ft Href].
  rewrite newDecimal_toFixed in H. cbn in H.
  injection H as _ _ <- _.
  exists w1, a, r, wl, b, bd. auto 10.
Qed.

(** A call that makes no conversion leaves wallets and journal as they
    were. *)
Lemma convertCurrency_frame user dto w res w' :
  convertCurrency user dto w = (res, w') ->
  (forall m tr ri, res <> Returned (Converted m tr ri)) ->
  transactions (committed w') = transactions (committed w)
  /\ wallets (committed w') = wallets (committed w)
  /\ (working w' = working w \/ working w' = None).
Proof.
  intros H Hres. unfold convertCurrency in H.
  destruct (decide _) as [? | Hne].
  { injection H as <- <-. auto. }
  run_io. cbn in H.
  destruct (transactions (committed w) !! dto_reference dto) eqn:Href.
  { destruct (status t); injection H as <- <-; cbn; auto. }
  destruct (getRate _ _ _) as [[ri | e'] w1] eqn:Hrate;
    destruct (getRate_frame _ _ _ _ _ Hrate) as (Fw & Ft & Fk); cbn in Fw, Ft, Fk;
    [| injection H as <- <-; auto].
  assert (forall (o : Outcome ConvertResult) (w0 : World),
             committed w0 = committed w1 -> working w0 = None ->
             (o, w0) = (res, w') ->
             transactions (committed w') = transactions (committed w)
             /\ wallets (committed w') = wallets (committed w)
             /\ (working w' = working w \/ working w' = None)) as leaf.
  { intros o w0 Hc Hk [= <- <-]. rewrite Hc, Ft, Fw, Hk. auto. }
  destruct (newDecimal (dto_amount dto)) as [a |] eqn:Ha;
    [| injection H as <- <-; auto].
  cbn in H.
  destruct (newDecimal (rate ri)) as [r |] eqn:Hr; [| injection H as <- <-; auto].
  cbn in H. rewrite Ft, Href in H. cbn in H. rewrite Fw in H.
  destruct (wallets (committed w) !! (user, dto_fromCurrency dto)) as [wl |] eqn:Hwl;
    cbn in H; [| rolled_back H leaf Ft Href].
  destruct (newDecimal (balance wl)) as [b |] eqn:Hb;
    cbn in H; [| rolled_back H leaf Ft Href].
  destruct (lessThan b a) eqn:Hlt;
    cbn in H; [rolled_back H leaf Ft Href |].
  rewrite lookup_insert_ne, Fw in H by congruence.
  change (match wallets (committed w) !! (user, dto_toCurrency dto) with
          | Some wl0 => wl0 | None => walletRepository_create end)
    with (orCreate (wallets (committed w) !! (user, dto_toCurrency dto))) in H.
  destruct (newDecimal (balance (orCreate (wallets (committed w) !! (user, dto_toCurrency dto)))))
    as [bd |] eqn:Hbd; cbn in H;
    [| rolled_back H leaf Ft Href].
  rewrite newDecimal_toFixed in H. cbn in H.
  injection H as <- _. exfalso. eapply Hres. reflexivity.
Qed.

Lemma deductBalance_insufficient user c amount w t wl b a :
  working w = Some t ->
  wallets t !! (user, c) = Some wl ->
  newDecimal (balance wl) = Some b ->
  newDecimal amount = Some a ->
  lessThan b a = true ->
  deductBalance user c amount w
  = (Thrown (BadRequestException ("Insufficient balance in " +:+ code c +:+ " wallet")),
     logged (WalletLock user c) w).
Proof.
  intros Hw Hl Hb Ha Hlt. run_io. cbn. rewrite Hw, Hl, Hb. cbn.
  rewrite Ha. cbn. rewrite Hlt. reflexivity.
Qed.

Lemma addBalance_run user c amount w t b a :
  working w = Some t ->
  newDecimal (balance (orCreate (wallets t !! (user, c)))) = Some b ->
  newDecimal amount = Some a ->
  let found := wallets t !! (user, c) in
  let saved := mkWallet (toFixed 2 (plus b a)) (lockedBalance (orCreate found))
                        (savedVersion found) in
  addBalance user c amount w
  = (Returned saved,
     setWorking (Some (setWallets (<[(user, c) := saved]> (wallets t)) t))
       (logged (WalletSave user c) (logged (WalletLock user c) w))).
Proof.
  intros Hw Hb Ha found saved. run_io. cbn. rewrite Hw. cbn.
  change (match wallets t !! (user, c) with
          | Some wl => wl | None => walletRepository_create end)
    with (orCreate (wallets t !! (user, c))).
  rewrite Hb. cbn. rewrite Ha. cbn. rewrite Hw. reflexivity.
Qed.

Lemma deductBalance_effect user c amount w res w' :
  deductBalance user c amount w = (res, w') ->
  committed w' = committed w
  /\ (working w' = working w
      \/ exists t wl b a,
           working w = Some t /\ wallets t !! (user, c) = Some wl
           /\ newDecimal (balance wl) = Some b /\ newDecimal amount = Some a
           /\ lessThan b a = false
           /\ working w'
              = Some (setWallets
                        (<[(user, c) := mkWallet (toFixed 2 (minus b a)) (lockedBalance wl)
                                                 (version wl + 1)]> (wallets t)) t)).
Proof.
  intros H.
  destruct (working w) as [t |] eqn:Hw.
  2: { run_io. cbn in H. rewrite Hw in H. injection H as <- <-. cbn. auto. }
  destruct (wallets t !! (user, c)) as [wl |] eqn:Hl.
  2: { run_io. cbn in H. rewrite Hw, Hl in H. injection H as <- <-. cbn. auto. }
  destruct (newDecimal (balance wl)) as [b |] eqn:Hb.
  2: { run_io. cbn in H. rewrite Hw, Hl, Hb in H. injection H as <- <-. cbn. auto. }
  destruct (newDecimal amount) as [a |] eqn:Ha.
  2: { run_io. cbn in H. rewrite Hw, Hl, Hb in H. cbn in H. rewrite Ha in H.
       injection H as <- <-. cbn. auto. }
  destruct (lessThan b a) eqn:Hlt.
  - rewrite (deductBalance_insufficient _ _ _ _ _ _ _ _ Hw Hl Hb Ha Hlt) in H.
    injection H as <- <-. cbn. auto.
  - rewrite (deductBalance_run _ _ _ _ _ _ _ _ Hw Hl Hb Ha Hlt) in H.
    injection H as <- <-. cbn. split; [reflexivity |]. right.
    exists t, wl, b, a. auto 10.
Qed.

Lemma addBalance_effect user c amount w res w' :
  addBalance user c amount w = (res, w') ->
  committed w' = committed w
  /\ (working w' = working w
      \/ exists t b a,
           working w = Some t
           /\ newDecimal (balance (orCreate (wallets t !! (user, c)))) = Some b
           /\ newDecimal amount = Some a
           /\ working w'
              = Some (setWallets
                        (<[(user, c) := mkWallet (toFixed 2 (plus b a))
                                          (lockedBalance (orCreate (wallets t !! (user, c))))
                                          (savedVersion (wallets t !! (user, c)))]>
                           (wallets t)) t)).
Proof.
  intros H.
  destruct (working w) as [t |] eqn:Hw.
  2: { run_io. cbn in H. rewrite Hw in H. injection H as <- <-. cbn. auto. }
  destruct (newDecimal (balance (orCreate (wallets t !! (user, c))))) as [b |] eqn:Hb.
  2: { run_io. cbn in H. rewrite Hw in H. cbn in H.
       change (match wallets t !! (user, c) with
               | Some wl => wl | None => walletRepository_create end)
         with (orCreate (wallets t !! (user, c))) in H.
       rewrite Hb in H. injection H as <- <-. cbn. auto. }
  destruct (newDecimal amount) as [a |] eqn:Ha.
  2: { run_io. cbn in H. rewrite Hw in H. cbn in H.
       change (match wallets t !! (user, c) with
               | Some wl => wl | None => walletRepository_create end)
         with (orCreate (wallets t !! (user, c))) in H.
       rewrite Hb in H. cbn in H. rewrite Ha in H. injection H as <- <-. cbn. auto. }
  rewrite (addBalance_run _ _ _ _ _ _ _ Hw Hb Ha) in H.
  injection H as <- <-. cbn. split; [reflexivity |]. right. exists t, b, a. auto.
Qed.

Lemma fundWallet_replay user dto w existing :
  transactions (committed w) !! fund_reference dto = Some existing ->
  fundWallet user dto w
  = (match status existing with
     | COMPLETED => Returned (FundReplayed "Transaction already processed" existing)
     | PENDING =>
         Thrown (BadRequestException "Transaction is being processed. Please wait.")
     | FAILED =>
         Thrown (BadRequestException "Transaction has failed. Please use a new reference.")
     end,
     logged (TransactionFindOne (fund_reference dto)) w).
Proof.
  intros H. unfold fundWallet. run_io. cbn. rewrite H.
  destruct (status existing); reflexivity.
Qed.

Lemma convertCurrency_replay user dto w existing :
  dto_fromCurrency dto <> dto_toCurrency dto ->
  transactions (committed w) !! dto_reference dto = Some existing ->
  convertCurrency user dto w
  = (match status existing with
     | COMPLETED => Returned (ConversionReplayed "Conversion already processed" existing)
     | PENDING =>
         Thrown (BadRequestException "Conversion is being processed. Please wait.")
     | FAILED =>
         Thrown (BadRequestException "Conversion has failed. Please use a new reference.")
     end,
     logged (TransactionFindOne (dto_reference dto)) w).
Proof.
  intros Hne H. unfold convertCurrency.
  destruct (decide _) as [? | _]; [contradiction |].
  run_io. cbn. rewrite H. destruct (status existing); reflexivity.
Qed.

Lemma fundWallet_effect user dto w res w' :
  fundWallet user dto w = (res, w') ->
  (working w' = working w \/ working w' = None)
  /\ (wallets (committed w') = wallets (committed w)
      \/ exists b a,
           newDecimal (balance (orCreate (wallets (committed w)
                                            !! (user, fund_currency dto)))) = Some b
           /\ newDecimal (fund_amount dto) = Some a
           /\ wallets (committed w')
              = <[(user, fund_currency dto) :=
                    mkWallet (toFixed 2 (plus b a))
                      (lockedBalance (orCreate (wallets (committed w)
                                                  !! (user, fund_currency dto))))
                      (savedVersion (wallets (committed w) !! (user, fund_currency dto)))]>
                  (wallets (committed w))).
Proof.
  intros H.
  destruct (transactions (committed w) !! fund_reference dto) as [existing |] eqn:Href.
  { rewrite (fundWallet_replay _ _ _ _ Href) in H. injection H as <- <-. cbn. auto. }
  unfold fundWallet in H. run_io. cbn in H. rewrite Href in H. cbn in H.
  rewrite Href in H. cbn in H.
  change (match wallets (committed w) !! (user, fund_currency dto) with
          | Some wl => wl | None => walletRepository_create end)
    with (orCreate (wallets (committed w) !! (user, fund_currency dto))) in H.
  destruct (newDecimal (balance (orCreate (wallets (committed w)
                                             !! (user, fund_currency dto)))))
    as [b |] eqn:Hb; cbn in H.
  2: { injection H as <- <-. cbn. auto. }
  destruct (newDecimal (fund_amount dto)) as [a |] eqn:Ha; cbn in H.
  2: { injection H as <- <-. cbn. auto. }
  injection H as <- <-. cbn. split; [auto |]. right. exists b, a. auto.
Qed.

(** ** The rate resolver *)

Lemma fold_newer_In rows : forall best row,
  fold_left newer rows best = Some row -> best = Some row \/ In row rows.
Proof.
  induction rows as [| r rows IH]; intros best row H; cbn in H.
  - auto.
  - apply IH in H as [H | H]; [| right; right; exact H].
    unfold newer in H. destruct best as [b |].
    + destruct (fetchedAt b <? fetchedAt r); injection H as <-; [right; left | left]; reflexivity.
    + injection H as <-. right. left. reflexivity.
Qed.

Lemma latestRate_In src dst rows row :
  latestRate src dst rows = Some row -> In row rows.
Proof.
  unfold latestRate. intros H. apply fold_newer_In in H as [H | H]; [discriminate |].
  apply filter_In in H. tauto.
Qed.

Lemma getRate_same c w :
  getRate c c w
  = (Returned (mkFxRateInfo c c "1.000000" (now w) 0 "direct" None), w).
Proof.
  unfold getRate. destruct (decide (c = c)) as [_ | Hne]; [reflexivity | contradiction].
Qed.


Lemma getRate_fallback src dst w row :
  src <> dst ->
  cacheHit (cacheKeyOf src dst) w = false ->
  providerAnswers src dst w = false ->
  latestRate src dst (fxRates (committed w)) = Some row ->
  let age := (now w - fetchedAt row) / 1000 in
  let w' := logged (FxRateFindOne src dst)
              (logged (HttpGet src) (logged (CacheGet (cacheKeyOf src dst)) w)) in
  getRate src dst w
  = (if age <? 3600 then
       Returned (mkFxRateInfo (fx_fromCurrency row) (fx_toCurrency row) (fx_rate row)
                   (fetchedAt row) age
                   (if String.eqb (fx_source row) "" then "database" else fx_source row)
                   (Some ("Using cached rate from " +:+ showInt age +:+
                          " seconds ago. Current rates unavailable.")))
     else Thrown rateUnavailable, w').
Proof.
  intros Hne Hcache Hapi Hrow age w'. unfold getRate.
  destruct (decide _) as [? | _]; [contradiction |].
  unfold cacheHit in Hcache. unfold providerAnswers in Hapi.
  run_io. cbn.
  assert (match cache w !! cacheKeyOf src dst with
          | Some e => if now w <? expiresAt e then Some (cached e) else None
          | None => None
          end = None) as ->.
  { destruct (cache w !! cacheKeyOf src dst); [rewrite Hcache |]; reflexivity. }
  cbn.
  destruct (api w src) as [rates |]; cbn.
  - destruct (rates dst) as [r |]; cbn.
    + destruct (coef r =? 0); [| discriminate]. cbn. rewrite Hrow. cbn.
      fold age. destruct (age <? 3600); reflexivity.
    + rewrite Hrow. cbn. fold age. destruct (age <? 3600); reflexivity.
  - rewrite Hrow. cbn. fold age. destruct (age <? 3600); reflexivity.
Qed.

Lemma notNegative_one : notNegative "1.000000".
Proof. intros d H. vm_compute in H. injection H as <-. cbn. lia. Qed.

Lemma notNegative_toFixed dp x : 0 <= coef x -> notNegative (toFixed dp x).
Proof.
  intros Hx d H. destruct (toFixed_nonNegative dp x Hx) as (d' & Hd & Hc).
  congruence.
Qed.

(** The fallback tier of a run [H] that returned: its rate is a stored one. *)
Ltac stored_rate H Hrows :=
  let row := fresh "row" in
  let Hrow := fresh "Hrow" in
  destruct (latestRate _ _ _) as [row |] eqn:Hrow; cbn in H; [| discriminate H];
  destruct (_ <? 3600); [| discriminate H];
  injection H as <- _; cbn;
  apply Hrows; eapply latestRate_In; exact Hrow.

(** The provider tier and the tiers after it, in a run [H] that returned. *)
Ltac resolved_rate H Hrows Hapi :=
  let rates := fresh "rates" in
  let r := fresh "r" in
  let Ha := fresh "Ha" in
  let Hr := fresh "Hr" in
  destruct (api _ _) as [rates |] eqn:Ha; cbn in H;
  [ destruct (rates _) as [r |] eqn:Hr; cbn in H;
    [ destruct (Z.eqb_spec (coef r) 0); cbn in H;
      [ stored_rate H Hrows
      | injection H as <- _; cbn; apply notNegative_toFixed;
        eapply Hapi; eassumption ]
    | stored_rate H Hrows ]
  | stored_rate H Hrows ].

(** With no negative rate at hand, the rate resolved is not negative. *)
Lemma getRate_notNegative src dst w ri w' :
  ratesNotNegative w ->
  getRate src dst w = (Returned ri, w') ->
  notNegative (rate ri).
Proof.
  intros (Hcache & Hrows & Hapi) H. unfold getRate in H.
  destruct (decide _) as [-> | Hne].
  { run_io. cbn in H. injection H as <- _. apply notNegative_one. }
  run_io. cbn in H.
  destruct (cache w !! cacheKeyOf src dst) as [e |] eqn:He.
  - destruct (now w <? expiresAt e).
    + injection H as <- _. eapply Hcache. exact He.
    + cbn in H. resolved_rate H Hrows Hapi.
  - cbn in H. resolved_rate H Hrows Hapi.
Qed.

(** Resolving a rate touches no wallet row. *)
Lemma getRate_log src dst w res w' :
  getRate src dst w = (res, w') ->
  exists calls, log w' = log w ++ calls /\ walletCalls calls = [].
Proof.
  intros H. unfold getRate in H. run_io.
  repeat (cbn in H; first [ next_case H | injection H as <- <- ]); cbn;
    rewrite <- ?app_assoc; try (eexists; split; [reflexivity | reflexivity]).
  exists []. rewrite app_nil_r. auto.
Qed.

(** ** Balances are never negative *)

Lemma balancesNonNegative_insert ws key text locked v :
  balancesNonNegative ws -> nonNegativeText text ->
  balancesNonNegative (<[key := mkWallet text locked v]> ws).
Proof.
  intros Hws Htext k x H. destruct (decide (key = k)) as [-> | Hne].
  - rewrite lookup_insert_eq in H. injection H as <-. exact Htext.
  - rewrite lookup_insert_ne in H by exact Hne. eapply Hws. exact H.
Qed.

Lemma orCreate_nonNegative ws key b :
  balancesNonNegative ws ->
  newDecimal (balance (orCreate (ws !! key))) = Some b -> 0 <= coef b.
Proof.
  intros Hws Hb. destruct (ws !! key) as [wl |] eqn:Hl; cbn in Hb.
  - destruct (Hws _ _ Hl) as (d & Hd & Hc). congruence.
  - vm_compute in Hb. injection Hb as <-. cbn. lia.
Qed.

Create HintDb ledger.

#[local] Hint Resolve toFixed_nonNegative plus_nonneg minus_nonneg times_nonneg
  rescale_nonneg balancesNonNegative_insert orCreate_nonNegative : ledger.

Lemma ledger_of_frame w w' :
  ledgerNonNegative w ->
  wallets (committed w') = wallets (committed w) ->
  working w' = working w \/ working w' = None ->
  ledgerNonNegative w'.
Proof.
  intros [Hc Hk] Hw Hwork. split.
  - rewrite Hw. exact Hc.
  - intros t Ht. destruct Hwork as [E | E]; rewrite E in Ht; [eauto | discriminate].
Qed.

Lemma fundWallet_preserves user dto w :
  ledgerNonNegative w -> notNegative (fund_amount dto) ->
  ledgerNonNegative (snd (fundWallet user dto w)).
Proof.
  intros HI Hamt. unfold notNegative in Hamt.
  destruct (fundWallet user dto w) as [res w'] eqn:H. cbn.
  destruct (fundWallet_effect _ _ _ _ _ H) as (Hwork & [Hw | (b & a & Hb & Ha & Hw)]).
  - eapply ledger_of_frame; eassumption.
  - destruct HI as [Hc Hk]. split.
    + rewrite Hw. eauto 10 with ledger.
    + intros t Ht. destruct Hwork as [E | E]; rewrite E in Ht; [eauto | discriminate].
Qed.

Lemma deductBalance_preserves user c amount w :
  ledgerNonNegative w -> ledgerNonNegative (snd (deductBalance user c amount w)).
Proof.
  intros [Hc Hk]. destruct (deductBalance user c amount w) as [res w'] eqn:H. cbn.
  destruct (deductBalance_effect _ _ _ _ _ _ H)
    as (Hcom & [Hwork | (t & wl & b & a & Hw & Hl & Hb & Ha & Hlt & Hwork)]).
  - split; [rewrite Hcom; exact Hc |]. rewrite Hwork. exact Hk.
  - split; [rewrite Hcom; exact Hc |]. intros t' Ht'. rewrite Hwork in Ht'.
    injection Ht' as <-. cbn. eauto with ledger.
Qed.

Lemma addBalance_preserves user c amount w :
  ledgerNonNegative w -> notNegative amount ->
  ledgerNonNegative (snd (addBalance user c amount w)).
Proof.
  intros [Hc Hk] Hamt. unfold notNegative in Hamt.
  destruct (addBalance user c amount w) as [res w'] eqn:H. cbn.
  destruct (addBalance_effect _ _ _ _ _ _ H)
    as (Hcom & [Hwork | (t & b & a & Hw & Hb & Ha & Hwork)]).
  - split; [rewrite Hcom; exact Hc |]. rewrite Hwork. exact Hk.
  - split; [rewrite Hcom; exact Hc |]. intros t' Ht'. rewrite Hwork in Ht'.
    injection Ht' as <-. cbn. eauto 10 with ledger.
Qed.

Lemma convertCurrency_preserves user dto w :
  ledgerNonNegative w -> notNegative (dto_amount dto) -> ratesNotNegative w ->
  ledgerNonNegative (snd (convertCurrency user dto w)).
Proof.
  intros HI Hamt Hrates. unfold notNegative in Hamt.
  destruct (convertCurrency user dto w) as [res w'] eqn:H. cbn.
  assert ((exists m tr ri, res = Returned (Converted m tr ri))
          \/ forall m tr ri, res <> Returned (Converted m tr ri)) as [(m & tr & ri & ->) | Hno].
  { destruct res as [[? ? | m tr ri] | e]; [right | left | right]; eauto; discriminate. }
  - destruct (convertCurrency_Converted_inv _ _ _ _ _ _ _ H)
      as (w1 & a & r & wl & b & bd & Hne & Href & Hrate & Ha & Hr & Hwl & Hb & Hlt & Hbd).
    destruct (convertCurrency_run _ _ _ _ _ _ _ _ _ _ Hne Href Hrate Ha Hr Hwl Hb Hlt Hbd)
      as (w'' & Hrun & Hw & _ & Hwork & _).
    rewrite H in Hrun. injection Hrun as -> -> ->.
    destruct HI as [Hc Hk]. split; [| intros t Ht; congruence].
    rewrite Hw.
    assert (0 <= coef (times a r)) as Hpos.
    { assert (ratesNotNegative (logged (TransactionFindOne (dto_reference dto)) w))
        as Hrates' by exact Hrates.
      pose proof (getRate_notNegative _ _ _ _ _ Hrates' Hrate _ Hr).
      auto with ledger. }
    assert (0 <= (if isNeg (times a r) then - rescale 2 (times a r)
                  else rescale 2 (times a r))) as Hcredit.
    { unfold isNeg. destruct (Z.ltb_spec (coef (times a r)) 0); [lia |].
      apply rescale_nonneg. }
    eauto 12 with ledger.
  - destruct (convertCurrency_frame _ _ _ _ _ H Hno) as (_ & Hw & Hwork).
    eapply ledger_of_frame; eassumption.
Qed.

Lemma perform_preserves op w :
  ledgerNonNegative w -> creditsNotNegative op w -> ledgerNonNegative (perform op w).
Proof.
  intros HI Hop. destruct op as [user dto | user dto | user c amount | user c amount | | |];
    cbn [perform creditsNotNegative] in *.
  - apply fundWallet_preserves; assumption.
  - destruct Hop. apply convertCurrency_preserves; assumption.
  - apply addBalance_preserves; assumption.
  - apply deductBalance_preserves; assumption.
  - destruct HI as [Hc Hk]. split; cbn; [exact Hc |]. intros t [= <-]. exact Hc.
  - destruct HI as [Hc Hk]. run_io. cbn. destruct (working w) as [t |] eqn:E; cbn.
    + split; cbn; [eauto | discriminate].
    + split; cbn; [exact Hc |]. rewrite E. discriminate.
  - destruct HI as [Hc Hk]. run_io. cbn. destruct (working w) as [t |] eqn:E; cbn.
    + split; cbn; [exact Hc | discriminate].
    + split; cbn; [exact Hc |]. rewrite E. discriminate.
Qed.

Lemma performAll_preserves ops : forall w,
  ledgerNonNegative w -> allCreditsNotNegative ops w ->
  ledgerNonNegative (performAll ops w).
Proof.
  induction ops as [| op ops IH]; intros w HI Hops; cbn in *.
  - exact HI.
  - destruct Hops as [Hop Hrest]. apply IH; [| exact Hrest].
    apply perform_preserves; assumption.
Qed.

(** ** Facts the statements below share *)

(** The first check of convertCurrency. *)
Lemma convertCurrency_same user dto w :
  dto_fromCurrency dto = dto_toCurrency dto ->
  convertCurrency user dto w
  = (Thrown (BadRequestException "Cannot convert to the same currency"), w).
Proof.
  intros E. unfold convertCurrency.
  destruct (decide _) as [_ | Hne]; [reflexivity | contradiction].
Qed.

(** A conversion that throws leaves journal and wallets as they were: no
    FAILED row is written. *)
Lemma convertCurrency_Thrown user dto w e w' :
  convertCurrency user dto w = (Thrown e, w') ->
  transactions (committed w') = transactions (committed w)
  /\ wallets (committed w') = wallets (committed w).
Proof.
  intros H. destruct (convertCurrency_frame _ _ _ _ _ H) as (Ht & Hw & _).
  - discriminate.
  - auto.
Qed.

(** What a conversion that returns has done, from its result alone. *)
Lemma convertCurrency_Converted user dto w m tr ri w' :
  convertCurrency user dto w = (Returned (Converted m tr ri), w') ->
  exists w1 a r wl b bd,
    getRate (dto_fromCurrency dto) (dto_toCurrency dto)
            (logged (TransactionFindOne (dto_reference dto)) w) = (Returned ri, w1)
    /\ newDecimal (dto_amount dto) = Some a
    /\ newDecimal (rate ri) = Some r
    /\ wallets (committed w) !! (user, dto_fromCurrency dto) = Some wl
    /\ newDecimal (balance wl) = Some b
    /\ lessThan b a = false
    /\ newDecimal (balance (orCreate (wallets (committed w) !! (user, dto_toCurrency dto))))
       = Some bd
    /\ dto_fromCurrency dto <> dto_toCurrency dto
    /\ tr = withStatus (pendingConversion user dto (toFixed 2 (times a r)) ri) COMPLETED
    /\ wallets (committed w')
       = <[(user, dto_toCurrency dto) :=
             mkWallet (toFixed 2 (plus bd (mkDecimal (if isNeg (times a r)
                                                      then - rescale 2 (times a r)
                                                      else rescale 2 (times a r)) 2)))
               (lockedBalance (orCreate (wallets (committed w) !! (user, dto_toCurrency dto))))
               (savedVersion (wallets (committed w) !! (user, dto_toCurrency dto)))]>
           (<[(user, dto_fromCurrency dto) :=
                mkWallet (toFixed 2 (minus b a)) (lockedBalance wl) (version wl + 1)]>
              (wallets (committed w)))
    /\ log w' = log w1 ++ unitOfWorkCalls user dto.
Proof.
  intros H.
  destruct (convertCurrency_Converted_inv _ _ _ _ _ _ _ H)
    as (w1 & a & r & wl & b & bd & Hne & Href & Hrate & Ha & Hr & Hwl & Hb & Hlt & Hbd).
  destruct (convertCurrency_run _ _ _ _ _ _ _ _ _ _ Hne Href Hrate Ha Hr Hwl Hb Hlt Hbd)
    as (w'' & Hrun & Hw & _ & _ & Hlog).
  rewrite H in Hrun. injection Hrun as -> -> ->.
  exists w1, a, r, wl, b, bd. auto 15.
Qed.

Lemma lockOrder_walletCalls evs : lockOrder evs = lockOrder (walletCalls evs).
Proof.
  induction evs as [| e evs IH]; [reflexivity |].
  destruct e; cbn; rewrite ?IH; reflexivity.
Qed.

(** The warning of the fallback tier is never the empty text. *)
Lemma warning_not_empty s :
  "Using cached rate from " +:+ s +:+ " seconds ago. Current rates unavailable." <> "".
Proof. discriminate. Qed.

Lemma scale_plus x y : scale (plus x y) = Nat.max (scale x) (scale y).
Proof. reflexivity. Qed.

Lemma scale_minus x y : scale (minus x y) = Nat.max (scale x) (scale y).
Proof. reflexivity. Qed.

(** An empty ledger has no negative balance. *)
Lemma freshWorld_ledger provider : ledgerNonNegative (freshWorld provider).
Proof.
  split.
  - intros key wl H. cbn in H. rewrite lookup_empty in H. discriminate.
  - discriminate.
Qed.

Lemma readsNotNegative_spec s : readsNotNegative s = true -> notNegative s.
Proof.
  unfold readsNotNegative. intros H d Hd. rewrite Hd in H. lia.
Qed.

Lemma quoting_notNegative base quote r :
  0 <= coef r ->
  forall b rates q r',
    quoting base quote r b = Some rates -> rates q = Some r' -> 0 <= coef r'.
Proof.
  intros Hr b rates q r' H1 H2. unfold quoting in H1.
  destruct (decide (b = base)); [| discriminate]. injection H1 as <-.
  destruct (decide (q = quote)); [| discriminate]. injection H2 as <-. exact Hr.
Qed.

(** A check of [ratesNotNegative] that computes, for a provider that quotes
    one pair. *)
Lemma ratesNotNegative_check w base quote r :
  api w = quoting base quote r ->
  (0 <=? coef r) = true ->
  forallb (fun kv => readsNotNegative (rate (cached kv.2))) (map_to_list (cache w)) = true ->
  forallb (fun row => readsNotNegative (fx_rate row)) (fxRates (committed w)) = true ->
  ratesNotNegative w.
Proof.
  intros Hapi Hr Hcache Hrows. split; [| split].
  - intros key e He. apply readsNotNegative_spec.
    rewrite forallb_forall in Hcache.
    apply (Hcache (key, e)). apply list_elem_of_In, elem_of_map_to_list. exact He.
  - intros row Hin. apply readsNotNegative_spec.
    rewrite forallb_forall in Hrows. apply Hrows, Hin.
  - rewrite Hapi. apply quoting_notNegative. lia.
Qed.

(** The sample sequence credits nothing negative. *)
Lemma sampleOperations_allowed :
  allCreditsNotNegative sampleOperations (freshWorld (quoting NGN USD (mkDecimal 65 5))).
Proof.
  cbn [allCreditsNotNegative sampleOperations creditsNotNegative].
  repeat split;
    try (apply readsNotNegative_spec; vm_compute; reflexivity);
    apply (ratesNotNegative_check _ NGN USD (mkDecimal 65 5));
    vm_compute; reflexivity.
Defined.

(** The conversion of the scenario, run. *)
Lemma scenario_conversion :
  convertCurrency "U1" (mkConvertCurrencyDto NGN USD "10000" "ref-2") u1Funded
  = (Returned
       (Converted "Currency converted successfully"
          (mkTransaction "U1" CONVERT (Some NGN) (Some "10000") (Some USD) (Some "6.50")
             (Some "0.000650") COMPLETED "ref-2"
             (ConvertMetadata "exchangerate-api" 1000000 0 None) None)
          (mkFxRateInfo NGN USD "0.000650" 1000000 0 "exchangerate-api" None)),
     u1Converted).
Proof. vm_compute. reflexivity. Qed.

(** * The claims *)

(** ** Idempotency gate *)

(** C1, as amended.  When the reference of a request is in the journal,
    fundWallet, and convertCurrency between two distinct currencies, do
    nothing but look the reference up: a COMPLETED row is returned as it is
    stored, a PENDING one is answered "being processed", a FAILED one
    "has failed, use a new reference"; no transaction is opened and no
    wallet is touched.  (Between equal currencies the same-currency rejection
    comes first.) *)
Theorem idempotency_gate (user : string) (w : World) (fundDto : FundWalletDto)
    (convertDto : ConvertCurrencyDto) (funded converted : Transaction) :
  transactions (committed w) !! fund_reference fundDto = Some funded ->
  transactions (committed w) !! dto_reference convertDto = Some converted ->
  dto_fromCurrency convertDto <> dto_toCurrency convertDto ->
  fundWallet user fundDto w
  = (match status funded with
     | COMPLETED => Returned (FundReplayed "Transaction already processed" funded)
     | PENDING =>
         Thrown (BadRequestException "Transaction is being processed. Please wait.")
     | FAILED =>
         Thrown (BadRequestException "Transaction has failed. Please use a new reference.")
     end,
     logged (TransactionFindOne (fund_reference fundDto)) w)
  /\ convertCurrency user convertDto w
     = (match status converted with
        | COMPLETED =>
            Returned (ConversionReplayed "Conversion already processed" converted)
        | PENDING =>
            Thrown (BadRequestException "Conversion is being processed. Please wait.")
        | FAILED =>
            Thrown (BadRequestException "Conversion has failed. Please use a new reference.")
        end,
        logged (TransactionFindOne (dto_reference convertDto)) w).
Proof.
  intros Hf Hc Hne. split.
  - apply fundWallet_replay, Hf.
  - apply convertCurrency_replay; assumption.
Qed.

(** The gate at work on the two references of the scenario. *)
Lemma idempotency_gate_witness :
  exists funded converted,
    fundWallet "U1" (mkFundWalletDto NGN "50000" "ref-1") u1Converted
    = (Returned (FundReplayed "Transaction already processed" funded),
       logged (TransactionFindOne "ref-1") u1Converted)
    /\ convertCurrency "U1" (mkConvertCurrencyDto NGN USD "10000" "ref-2") u1Converted
       = (Returned (ConversionReplayed "Conversion already processed" converted),
          logged (TransactionFindOne "ref-2") u1Converted).
Proof.
  eexists _, _.
  refine (idempotency_gate "U1" u1Converted (mkFundWalletDto NGN "50000" "ref-1")
            (mkConvertCurrencyDto NGN USD "10000" "ref-2")
            (mkTransaction "U1" FUND None None (Some NGN) (Some "50000") None COMPLETED
               "ref-1" (FundMetadata "direct") None)
            (mkTransaction "U1" CONVERT (Some NGN) (Some "10000") (Some USD) (Some "6.50")
               (Some "0.000650") COMPLETED "ref-2"
               (ConvertMetadata "exchangerate-api" 1000000 0 None) None)
            _ _ _).
  - vm_compute. reflexivity.
  - vm_compute. reflexivity.
  - discriminate.
Defined.

(** C1 as first stated fails: a conversion between equal currencies under a
    reference whose row is COMPLETED is rejected, the stored result is not
    returned. *)
Lemma same_currency_precedes_replay :
  (exists stored,
      transactions (committed u1Converted) !! "ref-2" = Some stored
      /\ status stored = COMPLETED)
  /\ convertCurrency "U1" (mkConvertCurrencyDto USD USD "10" "ref-2") u1Converted
     = (Thrown (BadRequestException "Cannot convert to the same currency"), u1Converted).
Proof.
  split.
  - eexists. split; vm_compute; reflexivity.
  - apply convertCurrency_same. reflexivity.
Qed.

(** ** A failed conversion and the journal *)

(** C2, on the code.  U1 holds 50000.00 NGN and asks to convert 60000 NGN
    under the new reference "ref-3".  The PENDING row is inserted inside the
    transaction, the debit is refused, the transaction is rolled back and
    the PENDING row goes with it: the lookup that follows finds nothing to
    mark, and the journal holds no row for "ref-3", FAILED or other.  The
    wallets are as before. *)
Theorem insufficient_balance_is_not_journaled :
  let dto := mkConvertCurrencyDto NGN USD "60000" "ref-3" in
  let run := convertCurrency "U1" dto u1Funded in
  fst run = Thrown (BadRequestException "Insufficient balance in NGN wallet")
  /\ log (snd run)
     = log u1Funded
       ++ [TransactionFindOne "ref-3"; CacheGet "fx:NGN:USD"; HttpGet NGN;
           CacheSet "fx:NGN:USD"; FxRateSave NGN USD; StartTransaction;
           TransactionSave "ref-3" PENDING; WalletLock "U1" NGN;
           RollbackTransaction; TransactionFindOne "ref-3"; Release]
  /\ transactions (committed (snd run)) !! "ref-3" = None
  /\ wallets (committed (snd run)) = wallets (committed u1Funded).
Proof. vm_compute. repeat split; reflexivity. Qed.

(** ** Debit, and balances that are never negative *)




(** ** Amounts of a conversion *)




(** ** Staleness ceiling of the fallback rate *)

(** C5, as amended.  When the pair is not cached, the provider gives no
    rate and a rate is stored for the pair, getRate throws "Exchange rate
    service unavailable" exactly when the latest stored rate is 3600 seconds
    old or older; when it is younger it returns that rate with its age in
    seconds and a warning that is not empty.  A rate aged 3601 seconds is
    refused, one aged 3599 seconds is returned with a warning. *)
Theorem fallback_staleness :
  (forall (src dst : Currency) (w : World) (row : FxRate),
      src <> dst ->
      cacheHit (cacheKeyOf src dst) w = false ->
      providerAnswers src dst w = false ->
      latestRate src dst (fxRates (committed w)) = Some row ->
      let age := (now w - fetchedAt row) / 1000 in
      (3600 <= age -> fst (getRate src dst w) = Thrown rateUnavailable)
      /\ (age < 3600 ->
          exists ri text,
            fst (getRate src dst w) = Returned ri
            /\ rate ri = fx_rate row /\ ageSeconds ri = age
            /\ warning ri = Some text /\ text <> ""))
  /\ fst (getRate NGN USD (fallbackWorld 3601000)) = Thrown rateUnavailable
  /\ (exists ri text,
         fst (getRate NGN USD (fallbackWorld 3599000)) = Returned ri
         /\ rate ri = "0.000650" /\ ageSeconds ri = 3599
         /\ warning ri = Some text /\ text <> "").
Proof.
  split; [| split].
  - intros src dst w row Hne Hcache Hapi Hrow age.
    rewrite (getRate_fallback _ _ _ _ Hne Hcache Hapi Hrow). fold age. cbn [fst].
    split; intros Hage.
    + destruct (Z.ltb_spec age 3600); [lia | reflexivity].
    + destruct (Z.ltb_spec age 3600); [| lia].
      eexists _, _. cbn. repeat split. apply warning_not_empty.
  - reflexivity.
  - eexists _, _. vm_compute. repeat split. discriminate.
Qed.

(** The stored rate aged 3599 seconds. *)
Lemma fallback_staleness_witness :
  (3600 <= (now (fallbackWorld 3599000) - 0) / 1000 ->
   fst (getRate NGN USD (fallbackWorld 3599000)) = Thrown rateUnavailable)
  /\ ((now (fallbackWorld 3599000) - 0) / 1000 < 3600 ->
      exists ri text,
        fst (getRate NGN USD (fallbackWorld 3599000)) = Returned ri
        /\ rate ri = "0.000650" /\ ageSeconds ri = (now (fallbackWorld 3599000) - 0) / 1000
        /\ warning ri = Some text /\ text <> "").
Proof.
  refine (proj1 fallback_staleness NGN USD (fallbackWorld 3599000)
            (mkFxRate NGN USD "0.000650" "exchangerate-api" 0) _ _ _ _).
  - discriminate.
  - vm_compute. reflexivity.
  - vm_compute. reflexivity.
  - vm_compute. reflexivity.
Defined.

(** C5 as first stated fails.  A stored rate aged exactly 3600 seconds does
    not exceed the ceiling of 3600 seconds, and getRate refuses it. *)
Lemma fallback_aged_exactly_3600 :
  latestRate NGN USD (fxRates (committed (fallbackWorld 3600000)))
  = Some (mkFxRate NGN USD "0.000650" "exchangerate-api" 0)
  /\ (now (fallbackWorld 3600000) - 0) / 1000 = 3600
  /\ (3600 <? 3600) = false
  /\ fst (getRate NGN USD (fallbackWorld 3600000)) = Thrown rateUnavailable.
Proof. vm_compute. repeat split; reflexivity. Qed.

(** ** Same-currency rejection *)

(** C6.  A conversion whose source and destination currency are the same
    is rejected with "Cannot convert to the same currency", whoever asks,
    whatever the amount and the reference.  The world is left exactly as it
    was, its log of calls included: the rejection comes before the journal is
    looked up, before any rate is resolved and before any row is locked, and
    nothing is written to the wallets or to the journal. *)
Theorem same_currency_rejected (user : string) (c : Currency) (amount ref : string)
    (w : World) :
  convertCurrency user (mkConvertCurrencyDto c c amount ref) w
  = (Thrown (BadRequestException "Cannot convert to the same currency"), w).
Proof. apply convertCurrency_same. reflexivity. Qed.

(** ** Credit *)




(** ** Order of the locks *)

(** C8, as amended.  In every conversion that returns, the calls on wallet
    rows are, in this order: lock the source row, save it, lock the
    destination row, save it.  Each row is locked before it is written, the
    source row is written before the destination row is locked, and the
    order of the locks is source then destination, whatever the currency
    codes. *)
Theorem conversion_locks_source_first (user : string) (dto : ConvertCurrencyDto)
    (w : World) (m : string) (tr : Transaction) (ri : FxRateInfo) (w' : World) :
  convertCurrency user dto w = (Returned (Converted m tr ri), w') ->
  exists calls,
    log w' = log w ++ calls
    /\ walletCalls calls
       = [ WalletLock user (dto_fromCurrency dto);
           WalletSave user (dto_fromCurrency dto);
           WalletLock user (dto_toCurrency dto);
           WalletSave user (dto_toCurrency dto) ]
    /\ lockOrder calls = [dto_fromCurrency dto; dto_toCurrency dto].
Proof.
  intros H.
  destruct (convertCurrency_Converted _ _ _ _ _ _ _ H)
    as (w1 & a & r & wl & b & bd & Hrate & _ & _ & _ & _ & _ & _ & _ & _ & _ & Hlog).
  destruct (getRate_log _ _ _ _ _ Hrate) as (rateCalls & Hlog1 & Hnone).
  exists ([TransactionFindOne (dto_reference dto)] ++ rateCalls ++ unitOfWorkCalls user dto).
  split; [| split].
  - rewrite Hlog, Hlog1. cbn [logged log]. rewrite <- !app_assoc. reflexivity.
  - unfold walletCalls in *. rewrite !List.filter_app, Hnone. reflexivity.
  - rewrite (lockOrder_walletCalls _). unfold walletCalls.
    rewrite !List.filter_app. fold (walletCalls rateCalls). rewrite Hnone. reflexivity.
Qed.

(** The conversion of the scenario locks NGN, then USD. *)
Lemma conversion_locks_source_first_witness :
  exists calls,
    log u1Converted = log u1Funded ++ calls
    /\ walletCalls calls
       = [ WalletLock "U1" NGN; WalletSave "U1" NGN;
           WalletLock "U1" USD; WalletSave "U1" USD ]
    /\ lockOrder calls = [NGN; USD].
Proof.
  exact (conversion_locks_source_first "U1" (mkConvertCurrencyDto NGN USD "10000" "ref-2")
           u1Funded _ _ _ u1Converted scenario_conversion).
Defined.

(** C8 as first stated fails.  A conversion from USD to NGN locks the USD
    row first although NGN comes first by code, and it saves the USD row
    before it locks the NGN row. *)
Lemma conversion_to_an_earlier_code :
  let dto := mkConvertCurrencyDto USD NGN "1" "ref-7" in
  let run := convertCurrency "U1" dto smallWorldIdle in
  (exists m tr ri, fst run = Returned (Converted m tr ri))
  /\ walletCalls (log (snd run))
     = [ WalletLock "U1" USD; WalletSave "U1" USD;
         WalletLock "U1" NGN; WalletSave "U1" NGN ]
  /\ lockOrder (log (snd run)) = [USD; NGN]
  /\ inCodeOrder (lockOrder (log (snd run))) = false
  /\ locksPrecedeSaves (log (snd run)) = false.
Proof.
  vm_compute. split; [eexists _, _, _; reflexivity |]. repeat split; reflexivity.
Qed.

(** ** Identity rate *)

(** C9.  For every currency, getRate from the currency to itself returns
    the rate "1.000000", age 0 and source "direct" with no warning, and
    leaves the world exactly as it was: no call is made on the cache, on the
    provider or on the stored rates. *)
Theorem identity_rate (c : Currency) (w : World) :
  exists ri,
    getRate c c w = (Returned ri, w)
    /\ rate ri = "1.000000" /\ ageSeconds ri = 0 /\ source ri = "direct"
    /\ warning ri = None.
Proof. eexists. rewrite getRate_same. cbn. auto. Qed.

(** ** Conversions that credit 0.00 *)



(** * Further properties of the services *)

(** ** What the proofs below share *)

Lemma World_eq (w1 w2 : World) :
  committed w1 = committed w2 -> working w1 = working w2 -> cache w1 = cache w2 ->
  api w1 = api w2 -> now w1 = now w2 -> cacheTTL w1 = cacheTTL w2 -> log w1 = log w2 ->
  w1 = w2.
Proof. destruct w1, w2. cbn. congruence. Qed.

Lemma Db_eq (d1 d2 : Db) :
  wallets d1 = wallets d2 -> transactions d1 = transactions d2 ->
  fxRates d1 = fxRates d2 -> d1 = d2.
Proof. destruct d1, d2. cbn. congruence. Qed.

Lemma fundWallet_run user dto w b a :
  transactions (committed w) !! fund_reference dto = None ->
  newDecimal (balance (orCreate (wallets (committed w) !! (user, fund_currency dto))))
  = Some b ->
  newDecimal (fund_amount dto) = Some a ->
  let found := wallets (committed w) !! (user, fund_currency dto) in
  let saved := mkWallet (toFixed 2 (plus b a)) (lockedBalance (orCreate found))
                        (savedVersion found) in
  fundWallet user dto w
  = (Returned (Funded "Wallet funded successfully" (completedFunding user dto) saved),
     mkWorld (mkDb (<[(user, fund_currency dto) := saved]> (wallets (committed w)))
                   (<[fund_reference dto := completedFunding user dto]>
                      (transactions (committed w)))
                   (fxRates (committed w)))
             None (cache w) (api w) (now w) (cacheTTL w)
             (log w ++ fundingCalls user dto)).
Proof.
  intros Href Hb Ha found saved.
  unfold fundWallet. run_io. cbn. rewrite Href. cbn. rewrite Href. cbn.
  change (match wallets (committed w) !! (user, fund_currency dto) with
          | Some wl => wl | None => walletRepository_create end)
    with (orCreate (wallets (committed w) !! (user, fund_currency dto))).
  rewrite Hb. cbn. rewrite Ha. cbn. rewrite ?Href. cbn.
  f_equal.
  apply World_eq; cbn; try reflexivity.
  - apply Db_eq; cbn; try reflexivity. apply insert_insert_eq.
  - rewrite <- !app_assoc. reflexivity.
Qed.


(** A funding under a reference the journal does not know either reads its
    two numbers, or throws and leaves the database as it was. *)
Lemma fundWallet_unknown user dto w :
  transactions (committed w) !! fund_reference dto = None ->
  (exists b a,
      newDecimal (balance (orCreate (wallets (committed w) !! (user, fund_currency dto))))
      = Some b
      /\ newDecimal (fund_amount dto) = Some a)
  \/ (exists e w',
         fundWallet user dto w = (Thrown e, w')
         /\ committed w' = committed w /\ working w' = None).
Proof.
  intros Href.
  destruct (newDecimal (balance (orCreate (wallets (committed w)
                                             !! (user, fund_currency dto)))))
    as [b |] eqn:Hb.
  - destruct (newDecimal (fund_amount dto)) as [a |] eqn:Ha.
    + left. exists b, a. auto.
    + right. unfold fundWallet. run_io. cbn. rewrite Href. cbn. rewrite Href. cbn.
      change (match wallets (committed w) !! (user, fund_currency dto) with
              | Some wl => wl | None => walletRepository_create end)
        with (orCreate (wallets (committed w) !! (user, fund_currency dto))).
      rewrite Hb. cbn. rewrite Ha. cbn.
      eexists _, _. split; [reflexivity | split; cbn; reflexivity].
  - right. unfold fundWallet. run_io. cbn. rewrite Href. cbn. rewrite Href. cbn.
    change (match wallets (committed w) !! (user, fund_currency dto) with
            | Some wl => wl | None => walletRepository_create end)
      with (orCreate (wallets (committed w) !! (user, fund_currency dto))).
    rewrite Hb. cbn.
    eexists _, _. split; [reflexivity | split; cbn; reflexivity].
Qed.

Lemma fundWallet_Funded_inv user dto w m tr wl w' :
  fundWallet user dto w = (Returned (Funded m tr wl), w') ->
  exists b a,
    transactions (committed w) !! fund_reference dto = None
    /\ newDecimal (balance (orCreate (wallets (committed w) !! (user, fund_currency dto))))
       = Some b
    /\ newDecimal (fund_amount dto) = Some a.
Proof.
  intros H.
  destruct (transactions (committed w) !! fund_reference dto) as [existing |] eqn:Href.
  { rewrite (fundWallet_replay _ _ _ _ Href) in H. destruct (status existing); discriminate H. }
  destruct (fundWallet_unknown user dto w Href) as [(b & a & Hb & Ha) | (e & w0 & Hrun & _)].
  - exists b, a. auto.
  - rewrite Hrun in H. discriminate H.
Qed.

Lemma completed_conversion user dto w m tr ri w' :
  convertCurrency user dto w = (Returned (Converted m tr ri), w') ->
  transactions (committed w) !! dto_reference dto = None
  /\ dto_fromCurrency dto <> dto_toCurrency dto
  /\ status tr = COMPLETED
  /\ transactions (committed w') = <[dto_reference dto := tr]> (transactions (committed w))
  /\ exists debited credited,
       wallets (committed w')
       = <[(user, dto_toCurrency dto) := credited]>
           (<[(user, dto_fromCurrency dto) := debited]> (wallets (committed w))).
Proof.
  intros H.
  destruct (convertCurrency_Converted_inv _ _ _ _ _ _ _ H)
    as (w1 & a & r & wl & b & bd & Hne & Href & Hrate & Ha & Hr & Hwl & Hb & Hlt & Hbd).
  destruct (convertCurrency_run user dto w ri w1 a r wl b bd Hne Href Hrate Ha Hr Hwl Hb Hlt Hbd)
    as (w2 & Hrun & Hws & Hts & _).
  rewrite Hrun in H. injection H as _ <- <-.
  repeat split; auto. eauto.
Qed.

(** ** Funding *)







(** ** Conversion *)





(** ** What every operation keeps *)

Section Preserved.

(** A property of the wallets that survives the save of a balance printed by
    [toFixed(2)], and a property of the journal that survives one more
    COMPLETED row under a free reference. *)
Variable PW : gmap (string * Currency) Wallet -> Prop.
Variable PJ : gmap string Transaction -> Prop.

Hypothesis PW_insert : forall ws key x locked v,
  PW ws -> PW (<[key := mkWallet (toFixed 2 x) locked v]> ws).
Hypothesis PJ_insert : forall ts ref tr,
  PJ ts -> ts !! ref = None -> status tr = COMPLETED -> PJ (<[ref := tr]> ts).

Lemma holds_of_frame w w' :
  holdsThroughout PW PJ w ->
  wallets (committed w') = wallets (committed w) ->
  transactions (committed w') = transactions (committed w) ->
  working w' = working w \/ working w' = None ->
  holdsThroughout PW PJ w'.
Proof.
  intros [Hc Hk] Hw Ht Hwork. split.
  - unfold holdsOf. rewrite Hw, Ht. exact Hc.
  - intros t E. destruct Hwork as [E' | E']; rewrite E' in E; [eauto | discriminate].
Qed.

Lemma fundWallet_preserved user dto w :
  holdsThroughout PW PJ w -> holdsThroughout PW PJ (snd (fundWallet user dto w)).
Proof.
  intros HI.
  destruct (transactions (committed w) !! fund_reference dto) as [existing |] eqn:Href.
  { rewrite (fundWallet_replay _ _ _ _ Href). exact HI. }
  destruct (fundWallet_unknown user dto w Href)
    as [(b & a & Hb & Ha) | (e & w0 & Hrun & Hc & Hk)].
  - rewrite (fundWallet_run _ _ _ _ _ Href Hb Ha). destruct HI as [[HW HJ] _].
    split; [| discriminate]. split; cbn; auto.
  - rewrite Hrun. cbn. eapply holds_of_frame; [exact HI | | | auto]; rewrite Hc; reflexivity.
Qed.

Lemma convertCurrency_preserved user dto w :
  holdsThroughout PW PJ w -> holdsThroughout PW PJ (snd (convertCurrency user dto w)).
Proof.
  intros HI. destruct (convertCurrency user dto w) as [res w'] eqn:H. cbn.
  assert ((exists m tr ri, res = Returned (Converted m tr ri))
          \/ forall m tr ri, res <> Returned (Converted m tr ri)) as [(m & tr & ri & ->) | Hno].
  { destruct res as [[? ? | m tr ri] | e]; [right | left | right]; eauto; discriminate. }
  - destruct (convertCurrency_Converted_inv _ _ _ _ _ _ _ H)
      as (w1 & a & r & wl & b & bd & Hne & Href & Hrate & Ha & Hr & Hwl & Hb & Hlt & Hbd).
    destruct (convertCurrency_run _ _ _ _ _ _ _ _ _ _ Hne Href Hrate Ha Hr Hwl Hb Hlt Hbd)
      as (w'' & Hrun & Hw & Ht & Hwork & _).
    rewrite H in Hrun. injection Hrun as -> -> ->.
    destruct HI as [[HW HJ] _]. split; [| intros t E; congruence].
    split; [rewrite Hw | rewrite Ht]; auto.
  - destruct (convertCurrency_frame _ _ _ _ _ H Hno) as (Ht & Hw & Hwork).
    eapply holds_of_frame; eassumption.
Qed.

Lemma deductBalance_preserved user c amount w :
  holdsThroughout PW PJ w -> holdsThroughout PW PJ (snd (deductBalance user c amount w)).
Proof.
  intros [Hc Hk]. destruct (deductBalance user c amount w) as [res w'] eqn:H. cbn.
  destruct (deductBalance_effect _ _ _ _ _ _ H)
    as (Hcom & [Hwork | (t & wl & b & a & Hw & Hl & Hb & Ha & Hlt & Hwork)]).
  - split; [rewrite Hcom; exact Hc |]. rewrite Hwork. exact Hk.
  - split; [rewrite Hcom; exact Hc |]. intros t' Ht'. rewrite Hwork in Ht'.
    injection Ht' as <-. destruct (Hk _ Hw). split; cbn; auto.
Qed.

Lemma addBalance_preserved user c amount w :
  holdsThroughout PW PJ w -> holdsThroughout PW PJ (snd (addBalance user c amount w)).
Proof.
  intros [Hc Hk]. destruct (addBalance user c amount w) as [res w'] eqn:H. cbn.
  destruct (addBalance_effect _ _ _ _ _ _ H)
    as (Hcom & [Hwork | (t & b & a & Hw & Hb & Ha & Hwork)]).
  - split; [rewrite Hcom; exact Hc |]. rewrite Hwork. exact Hk.
  - split; [rewrite Hcom; exact Hc |]. intros t' Ht'. rewrite Hwork in Ht'.
    injection Ht' as <-. destruct (Hk _ Hw). split; cbn; auto.
Qed.

Lemma perform_preserved op w :
  holdsThroughout PW PJ w -> holdsThroughout PW PJ (perform op w).
Proof.
  intros HI. destruct op as [user dto | user dto | user c amount | user c amount | | |];
    cbn [perform].
  - apply fundWallet_preserved; assumption.
  - apply convertCurrency_preserved; assumption.
  - apply addBalance_preserved; assumption.
  - apply deductBalance_preserved; assumption.
  - destruct HI as [Hc Hk]. split; cbn; [exact Hc |]. intros t [= <-]. exact Hc.
  - destruct HI as [Hc Hk]. run_io. cbn. destruct (working w) as [t |] eqn:E; cbn.
    + split; cbn; [eauto | discriminate].
    + split; cbn; [exact Hc |]. rewrite E. discriminate.
  - destruct HI as [Hc Hk]. run_io. cbn. destruct (working w) as [t |] eqn:E; cbn.
    + split; cbn; [exact Hc | discriminate].
    + split; cbn; [exact Hc |]. rewrite E. discriminate.
Qed.

Lemma performAll_preserved ops : forall w,
  holdsThroughout PW PJ w -> holdsThroughout PW PJ (performAll ops w).
Proof.
  induction ops as [| op ops IH]; intros w HI; cbn.
  - exact HI.
  - apply IH, perform_preserved, HI.
Qed.

End Preserved.

Lemma twoDecimals_toFixed x : twoDecimals (toFixed 2 x).
Proof. unfold twoDecimals. rewrite newDecimal_toFixed. eauto. Qed.

Lemma balancesTwoDecimals_insert ws key x locked v :
  balancesTwoDecimals ws ->
  balancesTwoDecimals (<[key := mkWallet (toFixed 2 x) locked v]> ws).
Proof.
  intros Hws k wl H. destruct (decide (key = k)) as [-> | Hne].
  - rewrite lookup_insert_eq in H. injection H as <-. apply twoDecimals_toFixed.
  - rewrite lookup_insert_ne in H by exact Hne. eapply Hws. exact H.
Qed.

(** ** Sequences of operations *)

(** X6 (fundWallet, convertCurrency, the query runner).  The committed
    journal holds COMPLETED rows only: from a journal (and an open
    transaction, if any) without a PENDING or FAILED row, no sequence of
    fundings, conversions, credits, debits and transaction boundaries, whatever
    their arguments and whether they return or throw, leaves a row that is not
    COMPLETED. *)
Theorem journal_rows_are_completed (ops : list Operation) (w : World) :
  journalCompleted (transactions (committed w)) ->
  (forall t, working w = Some t -> journalCompleted (transactions t)) ->
  journalCompleted (transactions (committed (performAll ops w))).
Proof.
  intros Hc Hk.
  apply (performAll_preserved (fun _ => True) journalCompleted).
  - auto.
  - intros ts ref tr Hts Hfree Hst k x Hx. destruct (decide (ref = k)) as [-> | Hne].
    + rewrite lookup_insert_eq in Hx. congruence.
    + rewrite lookup_insert_ne in Hx by exact Hne. eauto.
  - split; [split; auto |]. intros t E. split; auto.
Qed.

(** The sample sequence, which has a debit that is refused, from an empty
    database. *)
Lemma journal_rows_are_completed_witness :
  journalCompleted
    (transactions (committed (performAll sampleOperations
                                (freshWorld (quoting NGN USD (mkDecimal 65 5)))))).
Proof.
  apply journal_rows_are_completed.
  - intros ref tr H. unfold freshWorld in H. cbn in H.
    rewrite lookup_empty in H. discriminate H.
  - intros t H. discriminate H.
Defined.

(** X7 (fundWallet, convertCurrency, the query runner).  The journal is
    append-only: a row that is in the journal (and in the open transaction's
    copy, if one is open) is there, unchanged, after every sequence of
    fundings, conversions, credits, debits and transaction boundaries. *)
Theorem journal_is_append_only (ops : list Operation) (w : World) (ref : string)
    (tr : Transaction) :
  transactions (committed w) !! ref = Some tr ->
  (forall t, working w = Some t -> transactions t !! ref = Some tr) ->
  transactions (committed (performAll ops w)) !! ref = Some tr.
Proof.
  intros Hc Hk.
  apply (performAll_preserved (fun _ => True) (fun ts => ts !! ref = Some tr)).
  - auto.
  - intros ts ref' tr' Hts Hfree _.
    rewrite lookup_insert_ne; [exact Hts | congruence].
  - split; [split; auto |]. intros t E. split; auto.
Qed.

(** The row of U1's funding after the sample sequence. *)
Lemma journal_is_append_only_witness :
  transactions (committed (performAll sampleOperations u1Funded)) !! "ref-1"
  = Some (completedFunding "U1" (mkFundWalletDto NGN "50000" "ref-1")).
Proof.
  apply journal_is_append_only.
  - vm_compute. reflexivity.
  - intros t H. discriminate H.
Defined.



(** ** Amounts in hundredths *)

Lemma pow10_1 : pow10 1 = 10.
Proof. reflexivity. Qed.

Lemma pow10_2 : pow10 2 = 100.
Proof. reflexivity. Qed.

(** The cases of a scale of two at most. *)
Ltac small_scale x :=
  let s := fresh "s" in
  let E := fresh "E" in
  destruct (scale x) as [| [| [| s]]] eqn:E; [| | | lia].

Lemma toFixed_units x :
  (scale x <= 2)%nat -> newDecimal (toFixed 2 x) = Some (mkDecimal (unitsOf 2 x) 2).
Proof.
  intros Hs. rewrite newDecimal_toFixed, rescale_exact by exact Hs.
  unfold isNeg, unitsOf. pose proof (pow10_pos (2 - scale x)).
  destruct (Z.ltb_spec (coef x) 0); do 2 f_equal; nia.
Qed.

Lemma units_plus x y :
  (scale x <= 2)%nat -> (scale y <= 2)%nat ->
  unitsOf 2 (plus x y) = unitsOf 2 x + unitsOf 2 y.
Proof.
  intros Hx Hy. unfold unitsOf, plus. cbn [coef scale].
  small_scale x; small_scale y; cbn [Nat.max Nat.sub];
    rewrite ?pow10_0, ?pow10_1, ?pow10_2; lia.
Qed.

Lemma units_minus x y :
  (scale x <= 2)%nat -> (scale y <= 2)%nat ->
  unitsOf 2 (minus x y) = unitsOf 2 x - unitsOf 2 y.
Proof.
  intros Hx Hy. unfold unitsOf, minus. cbn [coef scale].
  small_scale x; small_scale y; cbn [Nat.max Nat.sub];
    rewrite ?pow10_0, ?pow10_1, ?pow10_2; lia.
Qed.

Lemma lessThan_units x y :
  (scale x <= 2)%nat -> (scale y <= 2)%nat ->
  lessThan x y = (unitsOf 2 x <? unitsOf 2 y).
Proof.
  intros Hx Hy. unfold unitsOf, lessThan.
  small_scale x; small_scale y; cbn [Nat.sub];
    rewrite ?pow10_0, ?pow10_1, ?pow10_2;
    match goal with |- (?p <? ?q) = (?r <? ?s) =>
      destruct (Z.ltb_spec p q); destruct (Z.ltb_spec r s); try reflexivity; lia end.
Qed.

Lemma greaterThanOrEqualTo_lessThan x y :
  greaterThanOrEqualTo x y = negb (lessThan x y).
Proof.
  unfold greaterThanOrEqualTo, lessThan.
  destruct (Z.leb_spec (coef y * pow10 (scale x)) (coef x * pow10 (scale y)));
    destruct (Z.ltb_spec (coef x * pow10 (scale y)) (coef y * pow10 (scale x)));
    try reflexivity; lia.
Qed.

(** ** Credit and debit *)





(** ** The reading side *)



(** X12 (getOrCreateWallet, getWalletBalance).  getOrCreateWallet never
    throws and is idempotent: it returns the wallet of the user in the
    currency, which is then in the database; it writes only when there was
    none, and then the wallet 0.00 / 0.00 at version 1; no other wallet is
    touched; a second call, and getWalletBalance, return the same wallet and
    change nothing. *)
Theorem getOrCreateWallet_is_idempotent (user : string) (c : Currency) (w : World) :
  exists wl w1,
    getOrCreateWallet user c w = (Returned wl, w1)
    /\ wallets (committed w1) !! (user, c) = Some wl
    /\ (forall key, key <> (user, c) ->
                    wallets (committed w1) !! key = wallets (committed w) !! key)
    /\ match wallets (committed w) !! (user, c) with
       | Some old => wl = old /\ w1 = w
       | None => wl = mkWallet "0.00" "0.00" 1
       end
    /\ getOrCreateWallet user c w1 = (Returned wl, w1)
    /\ getWalletBalance user c w1 = (Returned wl, w1).
Proof.
  unfold getOrCreateWallet, getWalletBalance, walletRepository_findOne,
    walletRepository_save. run_io. cbn.
  destruct (wallets (committed w) !! (user, c)) as [old |] eqn:Hl; cbn.
  - exists old, w. rewrite Hl. auto 10.
  - rewrite Hl. eexists _, _. split; [reflexivity |]. cbn. rewrite lookup_insert_eq.
    repeat split; try reflexivity.
    intros key Hkey. apply lookup_insert_ne. congruence.
Qed.

Ltac distinct_currencies :=
  repeat first
    [ apply NoDup_nil_2
    | apply NoDup_cons_2;
      [ let Hin := fresh "Hin" in
        intros Hin;
        repeat (apply elem_of_cons in Hin as [Hin | Hin]; [discriminate Hin |]);
        apply elem_of_nil in Hin; exact Hin
      | ] ].

(** X13 (getUserWallets, getWalletBalance).  The two readers agree and are
    per user: getUserWallets changes nothing and lists, one per currency at
    most, exactly the wallets stored under the user, which are the ones
    getWalletBalance returns for that user; a currency the list lacks is one
    for which getWalletBalance throws NotFoundException. *)
Theorem getUserWallets_lists_the_wallets_of_the_user (user : string) (w : World) :
  exists l,
    getUserWallets user w = (Returned l, w)
    /\ NoDup (map fst l)
    /\ (forall c wl,
           In (c, wl) l <-> getWalletBalance user c w = (Returned wl, w))
    /\ (forall c,
           ~ In c (map fst l)
           <-> getWalletBalance user c w
               = (Thrown (NotFoundException ("Wallet not found for currency " +:+ code c)),
                  w)).
Proof.
  unfold getUserWallets, walletRepository_find, getWalletBalance, walletRepository_findOne.
  run_io. eexists. split; [reflexivity |]. cbn.
  destruct (wallets (committed w) !! (user, NGN)) as [w1 |] eqn:E1;
    destruct (wallets (committed w) !! (user, USD)) as [w2 |] eqn:E2;
    destruct (wallets (committed w) !! (user, EUR)) as [w3 |] eqn:E3;
    destruct (wallets (committed w) !! (user, GBP)) as [w4 |] eqn:E4;
    cbn;
    (split; [distinct_currencies |]);
    (split; [intros c wl | intros c]; destruct c; rewrite ?E1, ?E2, ?E3, ?E4;
     cbn; intuition (try discriminate; try congruence)).
Qed.

(** ** The rate resolver, further *)

Lemma sameState_logged e w : sameState (logged e w) w.
Proof. unfold sameState. cbn. auto 10. Qed.

Lemma getRate_cached src dst w e :
  src <> dst ->
  cache w !! cacheKeyOf src dst = Some e ->
  (now w <? expiresAt e) = true ->
  getRate src dst w = (Returned (cached e), logged (CacheGet (cacheKeyOf src dst)) w).
Proof.
  intros Hne He Hlive. unfold getRate.
  destruct (decide _) as [? | _]; [contradiction |].
  run_io. cbn. rewrite He, Hlive. reflexivity.
Qed.

Lemma cache_miss key w :
  cacheHit key w = false ->
  match cache w !! key with
  | Some e => if now w <? expiresAt e then Some (cached e) else None
  | None => None
  end = None.
Proof.
  unfold cacheHit. intros H. destruct (cache w !! key); [rewrite H |]; reflexivity.
Qed.

Lemma getRate_fetched src dst w rates r :
  src <> dst ->
  cacheHit (cacheKeyOf src dst) w = false ->
  api w src = Some rates ->
  rates dst = Some r ->
  coef r <> 0 ->
  getRate src dst w = (Returned (fetchedRate src dst r w), afterFetch src dst r w).
Proof.
  intros Hne Hmiss Hapi Hr Hnz. unfold getRate.
  destruct (decide _) as [? | _]; [contradiction |].
  run_io. cbn. rewrite (cache_miss _ _ Hmiss). cbn. rewrite Hapi. cbn. rewrite Hr. cbn.
  destruct (Z.eqb_spec (coef r) 0); [contradiction |]. cbn.
  f_equal. apply World_eq; cbn; try reflexivity.
  rewrite <- !app_assoc. reflexivity.
Qed.

Lemma getRate_unavailable src dst w :
  src <> dst ->
  cacheHit (cacheKeyOf src dst) w = false ->
  providerAnswers src dst w = false ->
  latestRate src dst (fxRates (committed w)) = None ->
  getRate src dst w
  = (Thrown rateUnavailable,
     logged (FxRateFindOne src dst)
       (logged (HttpGet src) (logged (CacheGet (cacheKeyOf src dst)) w))).
Proof.
  intros Hne Hmiss Hapi Hrow. unfold getRate.
  destruct (decide _) as [? | _]; [contradiction |].
  unfold providerAnswers in Hapi.
  run_io. cbn. rewrite (cache_miss _ _ Hmiss). cbn.
  destruct (api w src) as [rates |]; cbn.
  - destruct (rates dst) as [r |]; cbn.
    + destruct (coef r =? 0); [| discriminate]. cbn. rewrite Hrow. reflexivity.
    + rewrite Hrow. reflexivity.
  - rewrite Hrow. reflexivity.
Qed.

Lemma providerAnswers_true src dst w :
  providerAnswers src dst w = true ->
  exists rates r, api w src = Some rates /\ rates dst = Some r /\ coef r <> 0.
Proof.
  unfold providerAnswers. intros H.
  destruct (api w src) as [rates |] eqn:Hapi; [| discriminate].
  destruct (rates dst) as [r |] eqn:Hr; [| discriminate].
  exists rates, r. destruct (Z.eqb_spec (coef r) 0); cbn in H; [discriminate H | auto].
Qed.

(** The resolver does not read the log. *)
Lemma getRate_sameState src dst w1 w2 :
  sameState w1 w2 -> fst (getRate src dst w1) = fst (getRate src dst w2).
Proof.
  intros (Hc & Hk & Hh & Ha & Hn & Ht).
  destruct (decide (src = dst)) as [-> | Hne].
  { rewrite !getRate_same. cbn. rewrite Hn. reflexivity. }
  destruct (cacheHit (cacheKeyOf src dst) w1) eqn:Hhit.
  { unfold cacheHit in Hhit.
    destruct (cache w1 !! cacheKeyOf src dst) as [e |] eqn:He; [| discriminate].
    rewrite (getRate_cached _ _ w1 e Hne He Hhit).
    rewrite Hh in He. rewrite Hn in Hhit.
    rewrite (getRate_cached _ _ w2 e Hne He Hhit). reflexivity. }
  assert (cacheHit (cacheKeyOf src dst) w2 = false) as Hhit2.
  { unfold cacheHit in *. rewrite <- Hh, <- Hn. exact Hhit. }
  destruct (providerAnswers src dst w1) eqn:Hp.
  { destruct (providerAnswers_true _ _ _ Hp) as (rates & r & Hapi & Hr & Hnz).
    rewrite (getRate_fetched _ _ w1 rates r Hne Hhit Hapi Hr Hnz).
    rewrite Ha in Hapi.
    rewrite (getRate_fetched _ _ w2 rates r Hne Hhit2 Hapi Hr Hnz).
    cbn. unfold fetchedRate. rewrite Hn. reflexivity. }
  assert (providerAnswers src dst w2 = false) as Hp2.
  { unfold providerAnswers in *. rewrite <- Ha. exact Hp. }
  destruct (latestRate src dst (fxRates (committed w1))) as [row |] eqn:Hrow.
  - rewrite (getRate_fallback _ _ w1 row Hne Hhit Hp Hrow).
    rewrite Hc in Hrow.
    rewrite (getRate_fallback _ _ w2 row Hne Hhit2 Hp2 Hrow).
    rewrite Hn. destruct (_ <? 3600); reflexivity.
  - rewrite (getRate_unavailable _ _ w1 Hne Hhit Hp Hrow).
    rewrite Hc in Hrow.
    rewrite (getRate_unavailable _ _ w2 Hne Hhit2 Hp2 Hrow). reflexivity.
Qed.

Lemma fold_newer_latest rows : forall best row,
  fold_left newer rows best = Some row ->
  (forall b, best = Some b -> fetchedAt b <= fetchedAt row)
  /\ (forall r, In r rows -> fetchedAt r <= fetchedAt row).
Proof.
  induction rows as [| r rows IH]; intros best row H; cbn in H.
  - split; [| intros ? []]. intros b ->. injection H as ->. lia.
  - destruct (IH _ _ H) as [Hb Hr]. split.
    + intros b ->. cbn in Hb. destruct (Z.ltb_spec (fetchedAt b) (fetchedAt r)).
      * specialize (Hb r eq_refl). lia.
      * apply (Hb b eq_refl).
    + intros x [<- | Hx]; [| auto].
      destruct best as [b |]; cbn in Hb.
      * destruct (Z.ltb_spec (fetchedAt b) (fetchedAt r)).
        -- apply (Hb r eq_refl).
        -- specialize (Hb b eq_refl). lia.
      * apply (Hb r eq_refl).
Qed.

Lemma fold_newer_None rows : forall best,
  fold_left newer rows best = None -> best = None /\ rows = [].
Proof.
  induction rows as [| r rows IH]; intros best H; cbn in H; [auto |].
  destruct (IH _ H) as [Hb _]. destruct best as [b |]; cbn in Hb; [| discriminate].
  destruct (fetchedAt b <? fetchedAt r); discriminate.
Qed.

Lemma ofPair_filter src dst row :
  bool_decide (fx_fromCurrency row = src) && bool_decide (fx_toCurrency row = dst) = true
  <-> ofPair src dst row.
Proof.
  unfold ofPair. rewrite andb_true_iff, !bool_decide_eq_true. tauto.
Qed.

Lemma latestRate_Some src dst rows row :
  latestRate src dst rows = Some row ->
  In row rows /\ ofPair src dst row
  /\ forall r, In r rows -> ofPair src dst r -> fetchedAt r <= fetchedAt row.
Proof.
  intros H. unfold latestRate in H.
  destruct (fold_newer_In _ _ _ H) as [? | Hin]; [discriminate |].
  apply List.filter_In in Hin as [Hin Hp]. apply ofPair_filter in Hp.
  destruct (fold_newer_latest _ _ _ H) as [_ Hmax].
  split; [exact Hin |]. split; [exact Hp |].
  intros r Hr Hpr. apply Hmax. apply List.filter_In. split; [exact Hr |].
  apply ofPair_filter. exact Hpr.
Qed.

Lemma latestRate_None src dst rows :
  latestRate src dst rows = None -> forall r, In r rows -> ~ ofPair src dst r.
Proof.
  intros H r Hr Hp. unfold latestRate in H.
  destruct (fold_newer_None _ _ H) as [_ Hnil].
  assert (In r (List.filter (fun r => bool_decide (fx_fromCurrency r = src)
                                      && bool_decide (fx_toCurrency r = dst)) rows)) as Hin.
  { apply List.filter_In. split; [exact Hr |]. apply ofPair_filter. exact Hp. }
  rewrite Hnil in Hin. destruct Hin.
Qed.

(** A row of the pair stamped after every stored row of the pair is the
    latest one. *)
Lemma latestRate_app src dst rows row :
  ofPair src dst row ->
  (forall r, In r rows -> ofPair src dst r -> fetchedAt r < fetchedAt row) ->
  latestRate src dst (rows ++ [row]) = Some row.
Proof.
  intros Hp Hold. unfold latestRate. rewrite List.filter_app, fold_left_app. cbn [List.filter].
  apply ofPair_filter in Hp as Hp'. rewrite Hp'. cbn [fold_left].
  destruct (fold_left newer _ None) as [best |] eqn:Hbest; cbn; [| reflexivity].
  destruct (fold_newer_In _ _ _ Hbest) as [? | Hin]; [discriminate |].
  apply List.filter_In in Hin as [Hin Hpb]. apply ofPair_filter in Hpb.
  specialize (Hold _ Hin Hpb).
  destruct (Z.ltb_spec (fetchedAt best) (fetchedAt row)); [reflexivity | lia].
Qed.

(** X14 (getLastKnownRate).  getLastKnownRate never throws and changes
    nothing; it returns null exactly when the rate history has no row of the
    pair, and otherwise the rate and the time of a row of the pair that no
    row of the pair is later than, with age 0 and no warning. *)
Theorem last_known_rate_is_the_latest (src dst : Currency) (w : World) :
  exists found,
    getLastKnownRate src dst w = (Returned found, logged (FxRateFindOne src dst) w)
    /\ match found with
       | None => forall r, In r (fxRates (committed w)) -> ~ ofPair src dst r
       | Some info =>
           rate_fromCurrency info = src /\ rate_toCurrency info = dst
           /\ ageSeconds info = 0 /\ warning info = None /\ source info <> ""%string
           /\ (exists row, In row (fxRates (committed w)) /\ ofPair src dst row
                           /\ fx_rate row = rate info /\ fetchedAt row = timestamp info)
           /\ forall r, In r (fxRates (committed w)) -> ofPair src dst r ->
                        fetchedAt r <= timestamp info
       end.
Proof.
  unfold getLastKnownRate. run_io. cbn.
  destruct (latestRate src dst (fxRates (committed w))) as [row |] eqn:Hrow.
  - eexists. split; [reflexivity |]. cbn.
    destruct (latestRate_Some _ _ _ _ Hrow) as (Hin & [Hs Hd] & Hmax).
    repeat split; auto.
    + destruct (String.eqb_spec (fx_source row) ""); [discriminate | assumption].
    + exists row. unfold ofPair. auto.
  - eexists. split; [reflexivity |]. cbn. apply latestRate_None. exact Hrow.
Qed.



(** X16 (getRate, fetchFromApi, saveRateToDatabase).  A fetched rate is
    served from the cache for the time to live: when the pair is not cached
    and the provider quotes r, not zero, getRate returns r printed with six
    decimals, stamped with the clock, age 0, no warning; and for every moment
    less than cacheTTL seconds later, whatever the provider would answer then,
    getRate returns that same rate information, age 0 and stamp included, and
    does nothing but read the cache. *)
Theorem fetched_rate_is_cached_for_the_time_to_live (src dst : Currency) (w : World)
    (rates : Currency -> option Decimal) (r : Decimal) :
  src <> dst ->
  cacheHit (cacheKeyOf src dst) w = false ->
  api w src = Some rates ->
  rates dst = Some r ->
  coef r <> 0 ->
  exists ri w1,
    getRate src dst w = (Returned ri, w1)
    /\ rate ri = toFixed 6 r /\ timestamp ri = now w /\ ageSeconds ri = 0
    /\ source ri = "exchangerate-api"%string /\ warning ri = None
    /\ forall ms provider,
         0 <= ms < cacheTTL w * 1000 ->
         getRate src dst (withProvider provider (later ms w1))
         = (Returned ri,
            logged (CacheGet (cacheKeyOf src dst)) (withProvider provider (later ms w1))).
Proof.
  intros Hne Hmiss Hapi Hr Hnz.
  exists (fetchedRate src dst r w), (afterFetch src dst r w).
  split; [apply (getRate_fetched _ _ _ _ _ Hne Hmiss Hapi Hr Hnz) |].
  do 5 (split; [reflexivity |]).
  intros ms provider Hms.
  apply (getRate_cached src dst _
           (mkCacheEntry (fetchedRate src dst r w) (now w + cacheTTL w * 1000)) Hne).
  - cbn. apply lookup_insert_eq.
  - cbn. apply Z.ltb_lt. lia.
Qed.

(** A time to live of 60 seconds: the rate is served 59.999 seconds later,
    the provider being down. *)
Lemma fetched_rate_is_cached_for_the_time_to_live_witness :
  exists ri w1,
    getRate NGN USD (freshWorld (quoting NGN USD (mkDecimal 65 5))) = (Returned ri, w1)
    /\ rate ri = "0.000650"%string
    /\ getRate NGN USD (withProvider providerDown (later 59999 w1))
       = (Returned ri, logged (CacheGet "fx:NGN:USD") (withProvider providerDown (later 59999 w1))).
Proof.
  destruct (fetched_rate_is_cached_for_the_time_to_live NGN USD
              (freshWorld (quoting NGN USD (mkDecimal 65 5)))
              (fun q => if decide (q = USD) then Some (mkDecimal 65 5) else None)
              (mkDecimal 65 5))
    as (ri & w1 & Hrun & Hrate & _ & _ & _ & _ & Hlater);
    [discriminate | reflexivity | reflexivity | reflexivity | discriminate |].
  exists ri, w1. split; [exact Hrun |]. split; [rewrite Hrate; reflexivity |].
  apply (Hlater 59999 providerDown). cbn. lia.
Defined.



(** ** The preview *)

(** X18 (getConversionPreview).  The preview moves no money: whatever it
    returns or throws, it leaves every wallet, the journal and the open
    transaction as they were and makes no call on a wallet row; and between a
    currency and itself it throws "Cannot convert to the same currency" and
    does nothing at all. *)
Theorem preview_moves_no_money (src dst : Currency) (amount : string) (w : World)
    (res : Outcome ConversionPreview) (w' : World) :
  getConversionPreview src dst amount w = (res, w') ->
  wallets (committed w') = wallets (committed w)
  /\ transactions (committed w') = transactions (committed w)
  /\ working w' = working w
  /\ (exists calls, log w' = log w ++ calls /\ walletCalls calls = [])
  /\ (src = dst ->
      res = Thrown (BadRequestException "Cannot convert to the same currency") /\ w' = w).
Proof.
  intros H. unfold getConversionPreview in H.
  destruct (decide (src = dst)) as [-> | Hne].
  { injection H as <- <-. repeat split; auto. exists []. rewrite app_nil_r. auto. }
  assert (snd (getRate src dst w) = w') as <-.
  { unfold convertAmount in H. run_io.
    destruct (getRate src dst w) as [[ri | e] w1]; cbn in H |- *.
    - destruct (newDecimal amount); cbn in H;
        [destruct (newDecimal (rate ri)); cbn in H |]; injection H as _ <-; reflexivity.
    - injection H as _ <-. reflexivity. }
  destruct (getRate src dst w) as [x w1] eqn:Hrate. cbn.
  destruct (getRate_frame _ _ _ _ _ Hrate) as (Fw & Ft & Fk).
  repeat split; auto; [| contradiction | contradiction].
  apply (getRate_log _ _ _ _ _ Hrate).
Qed.

(** The preview of the scenario's conversion. *)
Lemma preview_moves_no_money_witness :
  wallets (committed (snd (getConversionPreview NGN USD "10000" u1Funded)))
  = wallets (committed u1Funded)
  /\ transactions (committed (snd (getConversionPreview NGN USD "10000" u1Funded)))
     = transactions (committed u1Funded).
Proof.
  destruct (preview_moves_no_money NGN USD "10000" u1Funded
              (fst (getConversionPreview NGN USD "10000" u1Funded))
              (snd (getConversionPreview NGN USD "10000" u1Funded)))
    as (Hw & Ht & _).
  - destruct (getConversionPreview NGN USD "10000" u1Funded). reflexivity.
  - split; assumption.
Defined.



(** ** When a conversion is made *)

